(** * TouchGrass: the Xcode manifest reconciliation scripts

    A shallow embedding of the Python scripts that edit
    [TouchGrass.xcodeproj/project.pbxproj] by text surgery:
    [sync_xcode_project.py], [add_files_to_xcode.py],
    [remove_from_xcode.py], [clean_xcode_project.py] and
    [rebuild_xcode_project.py].

    The manifest is the text of the file as [open(path, 'r').read()]
    gives it (newlines already translated), a list of characters.
    The parts of the Python library the scripts call ([str.replace],
    [str.split], [re.sub], [re.finditer], [uuid.uuid4], [open]) are
    modelled first, then each script, function by function, then the
    properties. *)

From Stdlib Require Import Ascii String NArith.
From stdpp Require Import base option list gmap strings.

Local Open Scope list_scope.

(** ** Text *)

Abbreviation str := (list ascii).

Definition txt (x : string) : str := list_ascii_of_string x.

Definition TAB : ascii := "009"%char.
Definition NL : ascii := "010"%char.
Definition DQ : ascii := "034"%char.

Definition ascii_eqb (a b : ascii) : bool := bool_decide (a = b).

(** ** Python string methods *)
Module Py.

(** [s.startswith(p)] *)
Fixpoint startswith (p x : str) : bool :=
  match p, x with
  | [], _ => true
  | a :: p', b :: x' => ascii_eqb a b && startswith p' x'
  | _ :: _, [] => false
  end.

(** [p in x] on strings: [p] occurs in [x] as a substring. *)
Fixpoint contains (p x : str) : bool :=
  match x with
  | [] => startswith p []
  | _ :: x' => startswith p x || contains p x'
  end.

(** [x.replace(old, new)]: the occurrences of [old] are found from left
    to right and do not overlap. *)
Fixpoint replace_from (fuel : nat) (old new x : str) : str :=
  match fuel with
  | 0 => x
  | S fuel' =>
      if startswith old x
      then new ++ replace_from fuel' old new (drop (length old) x)
      else match x with
           | [] => []
           | c :: x' => c :: replace_from fuel' old new x'
           end
  end.

Definition replace (old new x : str) : str :=
  match old with
  | [] => new ++ flat_map (fun c => c :: new) x
  | _ :: _ => replace_from (S (length x)) old new x
  end.

(** [x.split(sep)] for a one-character separator: never empty. *)
Fixpoint split (sep : ascii) (x : str) : list str :=
  match x with
  | [] => [[]]
  | c :: x' =>
      if ascii_eqb c sep then [] :: split sep x'
      else match split sep x' with
           | h :: t => (c :: h) :: t
           | [] => [[c]]
           end
  end.

(** [sep.join(parts)] *)
Fixpoint join (sep : str) (parts : list str) : str :=
  match parts with
  | [] => []
  | [p] => p
  | p :: rest => p ++ sep ++ join sep rest
  end.

(** [f.readlines()]: the lines of the text, each with its newline. *)
Fixpoint readlines (x : str) : list str :=
  match x with
  | [] => []
  | c :: x' =>
      if ascii_eqb c NL then [c] :: readlines x'
      else match readlines x' with
           | h :: t => (c :: h) :: t
           | [] => [[c]]
           end
  end.

(** [f.writelines(lines)] writes the concatenation. *)
Definition writelines (lines : list str) : str := concat lines.

(** [os.path.basename(p)]: what follows the last slash. *)
Fixpoint basename (p : str) : str :=
  match p with
  | [] => []
  | c :: p' =>
      if bool_decide ("/"%char ∈ p') then basename p'
      else if ascii_eqb c "/" then p' else p
  end.

(** [x.upper()] on ASCII letters. *)
Definition upper_char (c : ascii) : ascii :=
  let n := nat_of_ascii c in
  if (97 <=? n)%nat && (n <=? 122)%nat then ascii_of_nat (n - 32) else c.

Definition upper (x : str) : str := upper_char <$> x.

End Py.

(** ** Python regular expressions

    The fragment of [re] the scripts use: literals, a character class
    repeated between [lo] and [hi] times (greedy or lazy), and numbered
    groups. Matching is by backtracking in the order of [re]: a greedy
    repetition first tries to take one more character, a lazy one first
    tries to stop. Characters are the code points below 256. *)
Module Re.

Inductive item :=
| Lit (l : str)
| Rep (cls : ascii -> bool) (lo : nat) (hi : option nat) (greedy : bool)
| GOpen (g : nat)
| GClose (g : nat).

Definition regex := list item.

(** The groups closed so far, and where the open ones started. *)
Record caps := Caps { opened : list (nat * str); closed : list (nat * str) }.

Definition no_caps : caps := Caps [] [].

Fixpoint lookup_group (g : nat) (l : list (nat * str)) : option str :=
  match l with
  | [] => None
  | (g', t) :: l' => if bool_decide (g' = g) then Some t else lookup_group g l'
  end.

Definition open_group (g : nat) (x : str) (c : caps) : caps :=
  Caps ((g, x) :: opened c) (closed c).

Definition close_group (g : nat) (x : str) (c : caps) : caps :=
  match lookup_group g (opened c) with
  | Some start => Caps (opened c) ((g, take (length start - length x) start) :: closed c)
  | None => c
  end.

Definition below (hi : option nat) (n : nat) : bool :=
  match hi with
  | None => true
  | Some h => (n <? h)%nat
  end.

(** A repetition of [cls] followed by [k], the rest of the pattern; [n]
    characters were taken so far. *)
Fixpoint rep {R} (k : str -> option R) (cls : ascii -> bool) (lo : nat)
  (hi : option nat) (greedy : bool) (n : nat) (x : str) {struct x} : option R :=
  if greedy then
    match
      match x with
      | a :: x' => if cls a && below hi n then rep k cls lo hi greedy (S n) x' else None
      | [] => None
      end
    with
    | Some res => Some res
    | None => if (lo <=? n)%nat then k x else None
    end
  else
    match (if (lo <=? n)%nat then k x else None) with
    | Some res => Some res
    | None =>
        match x with
        | a :: x' => if cls a && below hi n then rep k cls lo hi greedy (S n) x' else None
        | [] => None
        end
    end.

(** [matches r x c]: match [r] at the start of [x]; the result is the
    text left after the match, with the groups. *)
Fixpoint matches (r : regex) (x : str) (c : caps) {struct r} : option (str * caps) :=
  match r with
  | [] => Some (x, c)
  | Lit l :: r' =>
      if Py.startswith l x then matches r' (drop (length l) x) c else None
  | Rep cls lo hi greedy :: r' =>
      rep (fun x' => matches r' x' c) cls lo hi greedy 0 x
  | GOpen g :: r' => matches r' x (open_group g x c)
  | GClose g :: r' => matches r' x (close_group g x c)
  end.

(** A match object: the text skipped before the match, the match
    ([group(0)]), the groups, and the text after the match. *)
Record mobj := Match { before : str; whole : str; groups : list (nat * str); after : str }.

Definition group (g : nat) (m : mobj) : str :=
  default [] (lookup_group g (groups m)).

(** [re.search(r, x)]: the leftmost match. *)
Fixpoint search (r : regex) (x : str) : option mobj :=
  match matches r x no_caps with
  | Some (rest, c) => Some (Match [] (take (length x - length rest) x) (closed c) rest)
  | None =>
      match x with
      | [] => None
      | a :: x' =>
          match search r x' with
          | Some m => Some (Match (a :: before m) (whole m) (groups m) (after m))
          | None => None
          end
      end
  end.

(** [if re.search(r, x):] *)
Definition found (r : regex) (x : str) : bool :=
  match search r x with
  | Some _ => true
  | None => false
  end.

(** [re.finditer(r, x)]: the matches from left to right, each search
    starting where the previous match ended (one character further after
    an empty match). *)
Fixpoint finditer_from (fuel : nat) (r : regex) (x : str) : list mobj :=
  match fuel with
  | 0 => []
  | S fuel' =>
      match search r x with
      | None => []
      | Some m =>
          match whole m, after m with
          | [], [] => [m]
          | [], _ :: rest => m :: finditer_from fuel' r rest
          | _ :: _, rest => m :: finditer_from fuel' r rest
          end
      end
  end.

Definition finditer (r : regex) (x : str) : list mobj :=
  finditer_from (S (length x)) r x.

(** [re.findall(r, x)] for a pattern with one group. *)
Definition findall (r : regex) (x : str) : list str :=
  group 1 <$> finditer r x.

(** [re.sub(r, repl, x)]: every match replaced by [repl] of it. *)
Fixpoint sub_from (fuel : nat) (r : regex) (repl : mobj -> str) (x : str) : str :=
  match fuel with
  | 0 => x
  | S fuel' =>
      match search r x with
      | None => x
      | Some m =>
          before m ++ repl m ++
          match whole m, after m with
          | [], [] => []
          | [], a :: rest => a :: sub_from fuel' r repl rest
          | _ :: _, rest => sub_from fuel' r repl rest
          end
      end
  end.

Definition sub (r : regex) (repl : mobj -> str) (x : str) : str :=
  sub_from (S (length x)) r repl x.

(** Character classes. *)
Definition code (a : ascii) : nat := nat_of_ascii a.

Definition between (lo hi : nat) (a : ascii) : bool :=
  (lo <=? code a)%nat && (code a <=? hi)%nat.

(** [\w] *)
Definition word (a : ascii) : bool :=
  between 48 57 a || between 65 90 a || between 95 95 a || between 97 122 a
  || between 170 170 a || between 178 179 a || between 181 181 a
  || between 185 186 a || between 188 190 a || between 192 214 a
  || between 216 246 a || between 248 255 a.

(** [\s] *)
Definition space (a : ascii) : bool :=
  between 9 13 a || between 28 32 a || between 133 133 a || between 160 160 a.

(** [.] without DOTALL *)
Definition dot (a : ascii) : bool := negb (ascii_eqb a NL).

(** [[^c]] *)
Definition other_than (c : ascii) (a : ascii) : bool := negb (ascii_eqb a c).

(** [[A-F0-9]] *)
Definition hex_upper (a : ascii) : bool := between 65 70 a || between 48 57 a.

(** [[\s\S]] *)
Definition any (a : ascii) : bool := true.

Definition star cls := Rep cls 0 None true.
Definition plus cls := Rep cls 1 None true.
Definition lazy_star cls := Rep cls 0 None false.
Definition opt cls := Rep cls 0 (Some 1%nat) true.
Definition times n cls := Rep cls n (Some n) true.

End Re.

(** ** Python's [uuid] module

    [uuid.uuid4()] draws 16 random bytes and stamps the version and the
    variant on them. The drawn 128-bit number is an input of the model:
    a run receives its draws as a sequence [rng : nat -> N]. *)
Module Uuid.

(** [UUID(bytes=os.urandom(16), version=4).int] for the draw [r]. *)
Definition uuid4 (r : N) : N :=
  let i := N.ldiff r (N.shiftl 0xc000 48) in
  let i := N.lor i (N.shiftl 0x8000 48) in
  let i := N.ldiff i (N.shiftl 0xf000 64) in
  N.lor i (N.shiftl 4 76).

Definition hex_digit (d : N) : ascii :=
  nth (N.to_nat d) (txt "0123456789abcdef") "0"%char.

(** The [k] low hexadecimal digits of [n], most significant first. *)
Fixpoint hex_of (k : nat) (n : N) : str :=
  match k with
  | 0 => []
  | S k' => hex_of k' (n / 16)%N ++ [hex_digit (n mod 16)%N]
  end.

(** [u.hex], that is ['%032x' % u.int] *)
Definition hex (u : N) : str := hex_of 32 u.

(** [str(u)]: the hex digits in groups of 8, 4, 4, 4 and 12. *)
Definition to_str (u : N) : str :=
  let h := hex u in
  take 8 h ++ txt "-" ++ take 4 (drop 8 h) ++ txt "-" ++ take 4 (drop 12 h)
  ++ txt "-" ++ take 4 (drop 16 h) ++ txt "-" ++ drop 20 h.

End Uuid.

(** ** Files and standard output *)

(** What the scripts print, without the decoration. *)
Inductive msg :=
| Syncing
| FoundInFilesystem (n : nat)
| FoundInProject (n : nat)
| RemovingMissingFile (name : str)
| AddingNewFile (name : str)
| ProjectUpdated (added removed : nat)
| AlreadyInSync
| RemovedReferences (count : nat) (name : str)
| NoReferencesFound (name : str)
| AlreadyInProject (name : str)
| Adding (name : str)
| Added (name : str)
| FileNotFound (path : str)
| Usage
| RemovingDuplicateFileReference (name : str)
| RemovingDuplicateBuildReference (name : str)
| RemovingDuplicateFromGroup (line : str)
| RemovingDuplicateFromSources (line : str)
| ProjectFileCleaned
| Rebuilding
| FoundToInclude (n : nat)
| Rebuilt
| BackupSaved.

(** The files by path, and what was printed so far. *)
Record world := World { files : gmap string str; stdout : list msg }.

(** [open(path, 'r').read()]: raises when the file is missing. *)
Definition read_file (path : string) (w : world) : option str :=
  files w !! path.

(** [open(path, 'w').write(x)] *)
Definition write_file (path : string) (x : str) (w : world) : world :=
  World (<[path := x]> (files w)) (stdout w).

Definition print (m : msg) (w : world) : world :=
  World (files w) (stdout w ++ [m]).

Definition prints (ms : list msg) (w : world) : world :=
  World (files w) (stdout w ++ ms).

(** A dict built from pairs, as [{name: path for name, path in pairs}]
    does: a key keeps the place of its first insertion and the value of
    its last. *)
Fixpoint dict_set {V} (k : str) (v : V) (d : list (str * V)) : list (str * V) :=
  match d with
  | [] => [(k, v)]
  | (k', v') :: d' => if bool_decide (k' = k) then (k, v) :: d' else (k', v') :: dict_set k v d'
  end.

Definition dict_of {V} (pairs : list (str * V)) : list (str * V) :=
  foldl (fun d p => dict_set (fst p) (snd p) d) [] pairs.

Definition tabs (n : nat) : str := replicate n TAB.

Definition project_file : string := "TouchGrass.xcodeproj/project.pbxproj".

(** [project_file + '.backup'] *)
Definition backup_file : string := project_file +:+ ".backup".

(** The line of a PBXFileReference entry, as every script formats it:
    [\t\t{file_ref} /* {name} */ = {isa = PBXFileReference; ...};] *)
Definition file_ref_entry (file_ref name path : str) : str :=
  tabs 2 ++ file_ref ++ txt " /* " ++ name
  ++ txt " */ = {isa = PBXFileReference; lastKnownFileType = sourcecode.swift; path = "
  ++ [DQ] ++ path ++ [DQ] ++ txt "; sourceTree = " ++ [DQ] ++ txt "<group>" ++ [DQ]
  ++ txt "; };".

(** [\t\t{build_ref} /* {name} in Sources */ = {isa = PBXBuildFile; fileRef = {file_ref} /* {name} */; };] *)
Definition build_ref_entry (build_ref name file_ref : str) : str :=
  tabs 2 ++ build_ref ++ txt " /* " ++ name
  ++ txt " in Sources */ = {isa = PBXBuildFile; fileRef = " ++ file_ref
  ++ txt " /* " ++ name ++ txt " */; };".

(** [\t\t\t\t{file_ref} /* {name} */,] *)
Definition child_entry (file_ref name : str) : str :=
  tabs 4 ++ file_ref ++ txt " /* " ++ name ++ txt " */,".

(** [\t\t\t\t{build_ref} /* {name} in Sources */,] *)
Definition source_entry (build_ref name : str) : str :=
  tabs 4 ++ build_ref ++ txt " /* " ++ name ++ txt " in Sources */,".

Definition end_file_reference : str := txt "/* End PBXFileReference section */".
Definition end_build_file : str := txt "/* End PBXBuildFile section */".

(** [(HEADER = \{[^}]+KEY = \([^)]+)]: a group or phase, from its
    identifier and comment up to the end of its list. With [nonempty]
    the list must hold a character ([[^)]+]), without it need not
    ([[^)]*]). *)
Definition list_pattern (header key : str) (nonempty : bool) : Re.regex :=
  [Re.GOpen 1; Re.Lit (header ++ txt " = {"); Re.plus (Re.other_than "}");
   Re.Lit (key ++ txt " = (");
   Re.Rep (Re.other_than ")") (if nonempty then 1 else 0) None true; Re.GClose 1].

Definition managers_group : str := txt "B71234591234567812345678 /* Managers */".
Definition views_group : str := txt "B71234571234567812345678 /* Views */".
Definition models_group : str := txt "B71234581234567812345678 /* Models */".
Definition root_group : str := txt "B71234561234567812345678 /* TouchGrass */".
Definition sources_phase : str := txt "B71234551234567812345678 /* Sources */".

(** [re.sub(pattern, r'\1\n' + entry, content)]: the entry goes on a
    new line at the end of every list the pattern matches. The text
    interpolated into the template is taken literally (it holds no
    backslash). *)
Definition append_to_lists (pattern : Re.regex) (entry : str) (content : str) : str :=
  Re.sub pattern (fun m => Re.group 1 m ++ [NL] ++ entry) content.

(** ** sync_xcode_project.py *)
Module sync_xcode_project.

Definition generate_uuid (r : N) : str :=
  take 24 (Py.join [] (Py.split "-" (Py.upper (Uuid.to_str (Uuid.uuid4 r))))).

(** [/\* ([\w\s]+\.swift) \*/] *)
Definition existing_pattern : Re.regex :=
  [Re.Lit (txt "/* "); Re.GOpen 1; Re.plus (fun a => Re.word a || Re.space a);
   Re.Lit (txt ".swift"); Re.GClose 1; Re.Lit (txt " */")].

Definition get_existing_files (content : str) : gset str :=
  list_to_set (Re.findall existing_pattern content).

(** [f'.*{re.escape(filename)}.*\n?'] *)
Definition line_pattern (filename : str) : Re.regex :=
  [Re.star Re.dot; Re.Lit filename; Re.star Re.dot; Re.opt (fun a => ascii_eqb a NL)].

Definition remove_lines (filename : str) (content : str) : str :=
  Re.sub (line_pattern filename) (fun _ => []) content.

Definition files_to_remove (content : str) (filesystem_files : list (str * str)) : gset str :=
  let filesystem_names : gset str := list_to_set (fst <$> filesystem_files) in
  let existing_in_project := get_existing_files content in
  existing_in_project ∖ filesystem_names.

(** The loop runs over a Python set, whose order is not specified; the
    model takes the names in the order of [elements]. *)
Definition remove_missing_files (content : str) (filesystem_files : list (str * str))
  : str * nat * list msg :=
  let to_remove := files_to_remove content filesystem_files in
  let content :=
    foldl (fun content filename => remove_lines filename content)
      content (elements to_remove) in
  (content, size to_remove, RemovingMissingFile <$> elements to_remove).

Definition files_to_add (content : str) (filesystem_files : list (str * str))
  : list (str * str) :=
  let filesystem_dict := dict_of filesystem_files in
  let existing_in_project := get_existing_files content in
  filter
    (fun p => (fst p ∉ existing_in_project) ∧ (fst p ≠ txt "GrassIconPreview.swift"))
    filesystem_dict.

(** One turn of the loop over [files_to_add]. *)
Definition add_file (file_ref build_ref name path : str) (content : str) : str :=
  let content :=
    Py.replace end_file_reference
      (file_ref_entry file_ref name path ++ [NL] ++ end_file_reference) content in
  let content :=
    Py.replace end_build_file
      (build_ref_entry build_ref name file_ref ++ [NL] ++ end_build_file) content in
  let group :=
    if Py.contains (txt "Managers/") path then managers_group
    else if Py.contains (txt "Views/") path then views_group
    else if Py.contains (txt "Models/") path then models_group
    else root_group in
  let pattern := list_pattern group (txt "children") true in
  let content :=
    if Re.found pattern content
    then append_to_lists pattern (child_entry file_ref name) content
    else content in
  let pattern := list_pattern sources_phase (txt "files") true in
  if Re.found pattern content
  then append_to_lists pattern (source_entry build_ref name) content
  else content.

(** The loop over [files_to_add] (with nothing to add the content is
    returned as it is): the [i]-th file takes the draws [2i] and [2i+1]. *)
Fixpoint add_files (rng : nat -> N) (i : nat) (to_add : list (str * str)) (content : str)
  : str :=
  match to_add with
  | [] => content
  | (name, path) :: rest =>
      let file_ref := generate_uuid (rng (2 * i)%nat) in
      let build_ref := generate_uuid (rng (2 * i + 1)%nat) in
      add_files rng (S i) rest (add_file file_ref build_ref name path content)
  end.

Definition add_missing_files (rng : nat -> N) (content : str)
  (filesystem_files : list (str * str)) : str * nat * list msg :=
  let to_add := files_to_add content filesystem_files in
  (add_files rng 0 to_add content, length to_add, (AddingNewFile ∘ fst) <$> to_add).

(** [main()]; [filesystem_files] is what [find_swift_files()] returns. *)
Definition main (filesystem_files : list (str * str)) (rng : nat -> N) (w : world)
  : option world :=
  content ← read_file project_file w;
  let w := print Syncing w in
  let w := print (FoundInFilesystem (length filesystem_files)) w in
  let w := print (FoundInProject (size (get_existing_files content))) w in
  let '(content, removed_count, out) := remove_missing_files content filesystem_files in
  let w := prints out w in
  let '(content, added_count, out) := add_missing_files rng content filesystem_files in
  let w := prints out w in
  Some
    (if bool_decide (0 < removed_count ∨ 0 < added_count)%nat
     then print (ProjectUpdated added_count removed_count) (write_file project_file content w)
     else print AlreadyInSync w).

End sync_xcode_project.

(** ** remove_from_xcode.py *)
Module remove_from_xcode.

(** The loop over the lines: the lines kept, and [removed_count]. *)
Fixpoint filter_lines (file_name : str) (skip_next : bool) (lines : list str)
  : list str * nat :=
  match lines with
  | [] => ([], 0%nat)
  | line :: rest =>
      if Py.contains file_name line then
        let skip_next :=
          if Py.contains (txt "{") line && negb (Py.contains (txt "}") line)
          then true else skip_next in
        let '(kept, removed_count) := filter_lines file_name skip_next rest in
        (kept, S removed_count)
      else if skip_next then
        filter_lines file_name (negb (Py.contains (txt "}") line)) rest
      else
        let '(kept, removed_count) := filter_lines file_name false rest in
        (line :: kept, removed_count)
  end.

Definition remove_file_from_project (project_path : string) (file_name : str) (w : world)
  : option world :=
  content ← read_file project_path w;
  let lines := Py.readlines content in
  let '(filtered_lines, removed_count) := filter_lines file_name false lines in
  Some
    (if bool_decide (0 < removed_count)%nat
     then write_file project_path (Py.writelines filtered_lines)
            (print (RemovedReferences removed_count file_name) w)
     else print (NoReferencesFound file_name) w).

Definition default_files_to_remove : list str :=
  [txt "OnboardingWindowController.swift";
   txt "SimpleOnboardingWindowController.swift";
   txt "ExerciseSelectionController.swift"].

(** The script body; [args] is [sys.argv[1:]]. *)
Definition main (args : list str) (w : world) : option world :=
  let files_to_remove :=
    match args with
    | [] => default_files_to_remove
    | _ :: _ => args
    end in
  foldl (fun w file_name => w ≫= remove_file_from_project project_file file_name)
    (Some w) files_to_remove.

End remove_from_xcode.

(** ** add_files_to_xcode.py *)
Module add_files_to_xcode.

Definition generate_id (r : N) : str :=
  Py.upper (take 24 (Uuid.hex (Uuid.uuid4 r))).

(** The text written for [file_path] with the identifiers [file_ref] and
    [build_ref]. *)
Definition add_file (file_ref build_ref file_name file_path : str) (content : str) : str :=
  let content :=
    Py.replace end_file_reference
      (file_ref_entry file_ref file_name file_path ++ [NL] ++ end_file_reference) content in
  let content :=
    Py.replace end_build_file
      (build_ref_entry build_ref file_name file_ref ++ [NL] ++ end_build_file) content in
  let content :=
    if Py.contains (txt "Managers/") file_path then
      append_to_lists (list_pattern managers_group (txt "children") true)
        (child_entry file_ref file_name) content
    else if Py.contains (txt "Views/") file_path then
      append_to_lists (list_pattern views_group (txt "children") true)
        (child_entry file_ref file_name) content
    else if Py.contains (txt "Models/") file_path then
      append_to_lists (list_pattern models_group (txt "children") true)
        (child_entry file_ref file_name) content
    else content in
  append_to_lists (list_pattern sources_phase (txt "files") true)
    (source_entry build_ref file_name) content.

(** [add_file_to_project]: the world after the call, and the number of
    draws taken so far. *)
Definition add_file_to_project (rng : nat -> N) (project_path : string) (file_path : str)
  (st : world * nat) : option (world * nat) :=
  let '(w, i) := st in
  let file_name := Py.basename file_path in
  content ← read_file project_path w;
  if Py.contains (txt "/* " ++ file_name ++ txt " */") content
  then Some (print (AlreadyInProject file_name) w, i)
  else
    let w := print (Adding file_name) w in
    let file_ref := generate_id (rng i) in
    let build_ref := generate_id (rng (S i)) in
    let content := add_file file_ref build_ref file_name file_path content in
    Some (print (Added file_name) (write_file project_path content w), S (S i)).

(** The script body; [args] is [sys.argv[1:]] and [exists] is
    [os.path.exists]. With no argument the script prints its usage and
    exits with status 1. *)
Definition main (exists_ : str -> bool) (rng : nat -> N) (args : list str) (w : world)
  : option world :=
  match args with
  | [] => Some (print Usage w)
  | _ :: _ =>
      fst <$>
      foldl
        (fun st file_path =>
           st ≫= fun st =>
           if exists_ file_path
           then add_file_to_project rng project_file file_path st
           else Some (print (FileNotFound file_path) (fst st), snd st))
        (Some (w, 0%nat)) args
  end.

End add_files_to_xcode.

(** ** clean_xcode_project.py *)
Module clean_xcode_project.

(** [(\t\t([A-F0-9]{24}) /\* ([^*]+) \*/ = \{isa = PBXFileReference;[^}]+\};)] *)
Definition file_ref_pattern : Re.regex :=
  [Re.GOpen 1; Re.Lit (tabs 2); Re.GOpen 2; Re.times 24 Re.hex_upper; Re.GClose 2;
   Re.Lit (txt " /* "); Re.GOpen 3; Re.plus (Re.other_than "*"); Re.GClose 3;
   Re.Lit (txt " */ = {isa = PBXFileReference;"); Re.plus (Re.other_than "}");
   Re.Lit (txt "};"); Re.GClose 1].

(** [(\t\t([A-F0-9]{24}) /\* ([^*]+) in Sources \*/ = \{isa = PBXBuildFile; fileRef = ([A-F0-9]{24})[^}]+\};)] *)
Definition build_ref_pattern : Re.regex :=
  [Re.GOpen 1; Re.Lit (tabs 2); Re.GOpen 2; Re.times 24 Re.hex_upper; Re.GClose 2;
   Re.Lit (txt " /* "); Re.GOpen 3; Re.plus (Re.other_than "*"); Re.GClose 3;
   Re.Lit (txt " in Sources */ = {isa = PBXBuildFile; fileRef = ");
   Re.GOpen 4; Re.times 24 Re.hex_upper; Re.GClose 4;
   Re.plus (Re.other_than "}"); Re.Lit (txt "};"); Re.GClose 1].

(** [children = \(([\s\S]*?)\);] *)
Definition children_pattern : Re.regex :=
  [Re.Lit (txt "children = ("); Re.GOpen 1; Re.lazy_star Re.any; Re.GClose 1;
   Re.Lit (txt ");")].

(** [/\* Sources \*/[^}]+files = \(([\s\S]*?)\);] *)
Definition sources_pattern : Re.regex :=
  [Re.Lit (txt "/* Sources */"); Re.plus (Re.other_than "}"); Re.Lit (txt "files = (");
   Re.GOpen 1; Re.lazy_star Re.any; Re.GClose 1; Re.Lit (txt ");")].

(** [([A-F0-9]{24})] *)
Definition id_pattern : Re.regex :=
  [Re.GOpen 1; Re.times 24 Re.hex_upper; Re.GClose 1].

(** The first two loops: over the matches of an entry pattern, with the
    dict of the names seen; an entry whose name was seen has its line
    and the newline after it cut out of the text, wherever they occur.
    [value] is what the dict records for a name first seen. *)
Definition dedup_step {V} (value : Re.mobj -> V) (duplicate : str -> msg)
  (st : str * gmap str V * list msg) (m : Re.mobj) : str * gmap str V * list msg :=
  let '(content, seen, out) := st in
  let full_line := Re.group 1 m in
  let filename := Re.group 3 m in
  if bool_decide (filename ∉ dom seen)
  then (content, <[filename := value m]> seen, out)
  else (Py.replace (full_line ++ [NL]) [] content, seen, out ++ [duplicate filename]).

Definition dedup_entries {V} (pattern : Re.regex) (value : Re.mobj -> V)
  (duplicate : str -> msg) (content : str) : str * gmap str V * list msg :=
  foldl (dedup_step value duplicate) (content, ∅, []) (Re.finditer pattern content).

(** [(ref_id, full_line)] *)
Definition file_ref_value (m : Re.mobj) : str * str :=
  (Re.group 2 m, Re.group 1 m).

(** [(build_id, file_ref, full_line)] *)
Definition build_ref_value (m : Re.mobj) : str * str * str :=
  (Re.group 2 m, Re.group 4 m, Re.group 1 m).

(** The loop over the lines of one list: a line whose first
    24-character identifier was seen in this list is dropped. *)
Fixpoint clean_lines (seen : gset str) (lines : list str) : list str :=
  match lines with
  | [] => []
  | line :: rest =>
      match Re.search id_pattern line with
      | Some id_match =>
          let file_id := Re.group 1 id_match in
          if bool_decide (file_id ∉ seen)
          then line :: clean_lines ({[file_id]} ∪ seen) rest
          else clean_lines seen rest
      | None => line :: clean_lines seen rest
      end
  end.

(** What the same loop prints: the lines it drops (the script prints
    them stripped). *)
Fixpoint dropped_lines (seen : gset str) (lines : list str) : list str :=
  match lines with
  | [] => []
  | line :: rest =>
      match Re.search id_pattern line with
      | Some id_match =>
          let file_id := Re.group 1 id_match in
          if bool_decide (file_id ∉ seen)
          then dropped_lines ({[file_id]} ∪ seen) rest
          else line :: dropped_lines seen rest
      | None => dropped_lines seen rest
      end
  end.

(** One turn of the last two loops, for the list matched by [m]. *)
Definition clean_list_step (duplicate : str -> msg) (st : str * list msg) (m : Re.mobj)
  : str * list msg :=
  let '(content, out) := st in
  let original := Re.group 1 m in
  let lines := Py.split NL original in
  let cleaned := Py.join [NL] (clean_lines ∅ lines) in
  (if bool_decide (cleaned ≠ original) then Py.replace original cleaned content else content,
   out ++ (duplicate <$> dropped_lines ∅ lines)).

Definition clean_lists (pattern : Re.regex) (duplicate : str -> msg) (content : str)
  : str * list msg :=
  foldl (clean_list_step duplicate) (content, []) (Re.finditer pattern content).

(** The text [clean_project_file] writes back, and what it prints. *)
Definition clean_content (content : str) : str * list msg :=
  let '(content, seen_file_refs, out1) :=
    dedup_entries file_ref_pattern file_ref_value RemovingDuplicateFileReference content in
  let '(content, seen_build_refs, out2) :=
    dedup_entries build_ref_pattern build_ref_value RemovingDuplicateBuildReference
      content in
  let '(content, out3) :=
    clean_lists children_pattern RemovingDuplicateFromGroup content in
  let '(content, out4) :=
    clean_lists sources_pattern RemovingDuplicateFromSources content in
  (content, out1 ++ out2 ++ out3 ++ out4).

Definition clean_project_file (filepath : string) (w : world) : option world :=
  content ← read_file filepath w;
  let '(content, out) := clean_content content in
  Some (print ProjectFileCleaned (write_file filepath content (prints out w))).

Definition main (w : world) : option world := clean_project_file project_file w.

End clean_xcode_project.

(** ** rebuild_xcode_project.py *)
Module rebuild_xcode_project.

Definition generate_uuid (r : N) : str :=
  take 24 (Py.join [] (Py.split "-" (Py.upper (Uuid.to_str (Uuid.uuid4 r))))).

(** The value [file_data] holds for a name. *)
Record data := Data { path : str; file_ref : str; build_ref : str }.

(** The loop that fills [file_data]: the [i]-th scanned file takes the
    draws [2i] and [2i+1]. *)
Fixpoint generate_ids (rng : nat -> N) (i : nat) (files : list (str * str))
  (file_data : list (str * data)) : list (str * data) :=
  match files with
  | [] => file_data
  | (name, path) :: rest =>
      let d := Data path (generate_uuid (rng (2 * i)%nat))
                 (generate_uuid (rng (2 * i + 1)%nat)) in
      generate_ids rng (S i) rest (dict_set name d file_data)
  end.

(** [if '.swift' in line and any(name in line for name, _ in files): continue] *)
Definition rebuilt_line (files : list (str * str)) (line : str) : bool :=
  Py.contains (txt ".swift") line
  && existsb (fun f => Py.contains (fst f) line) files.

(** The lists [managers_refs], [views_refs], [models_refs] and
    [root_refs] of the source. *)
Definition group_refs (file_data : list (str * data))
  : list str * list str * list str * list str :=
  foldl
    (fun '(managers_refs, views_refs, models_refs, root_refs) e =>
       let ref_line := child_entry (file_ref (snd e)) (fst e) in
       if Py.contains (txt "Managers/") (path (snd e))
       then (managers_refs ++ [ref_line], views_refs, models_refs, root_refs)
       else if Py.contains (txt "Views/") (path (snd e))
       then (managers_refs, views_refs ++ [ref_line], models_refs, root_refs)
       else if Py.contains (txt "Models/") (path (snd e))
       then (managers_refs, views_refs, models_refs ++ [ref_line], root_refs)
       else (managers_refs, views_refs, models_refs, root_refs ++ [ref_line]))
    ([], [], [], []) file_data.

(** [re.sub(pattern, r'\1\n' + '\n'.join(refs), content)] *)
Definition append_refs (header key : str) (refs : list str) (content : str) : str :=
  append_to_lists (list_pattern header key false) (Py.join [NL] refs) content.

(** The new text, from the scan result [files] and the text read. *)
Definition rebuilt_content (rng : nat -> N) (files : list (str * str)) (content : str)
  : str :=
  let file_data := generate_ids rng 0 files [] in
  let lines := Py.split NL content in
  let new_lines := filter (fun line => negb (rebuilt_line files line)) lines in
  let content := Py.join [NL] new_lines in
  let file_refs :=
    (fun e => file_ref_entry (file_ref (snd e)) (fst e) (path (snd e))) <$> file_data in
  let build_refs :=
    (fun e => build_ref_entry (build_ref (snd e)) (fst e) (file_ref (snd e)))
      <$> file_data in
  let content :=
    Py.replace end_file_reference
      (Py.join [NL] file_refs ++ [NL] ++ end_file_reference) content in
  let content :=
    Py.replace end_build_file
      (Py.join [NL] build_refs ++ [NL] ++ end_build_file) content in
  let '(managers_refs, views_refs, models_refs, root_refs) := group_refs file_data in
  let content :=
    match managers_refs with
    | [] => content
    | _ :: _ => append_refs managers_group (txt "children") managers_refs content
    end in
  let content :=
    match views_refs with
    | [] => content
    | _ :: _ => append_refs views_group (txt "children") views_refs content
    end in
  let content :=
    match models_refs with
    | [] => content
    | _ :: _ => append_refs models_group (txt "children") models_refs content
    end in
  let sources_refs :=
    (fun e => source_entry (build_ref (snd e)) (fst e)) <$> file_data in
  append_refs sources_phase (txt "files") sources_refs content.

(** [create_project_structure()]; [files] is what
    [find_all_swift_files()] returns. *)
Definition create_project_structure (rng : nat -> N) (files : list (str * str))
  (w : world) : option (str * world) :=
  let w := print (FoundToInclude (length files)) w in
  content ← read_file project_file w;
  Some (rebuilt_content rng files content, w).

Definition main (files : list (str * str)) (rng : nat -> N) (w : world) : option world :=
  let w := print Rebuilding w in
  original ← read_file project_file w;
  let w := write_file backup_file original w in
  '(new_content, w) ← create_project_structure rng files w;
  let w := write_file project_file new_content w in
  Some (print BackupSaved (print Rebuilt w)).

End rebuild_xcode_project.

(** ** The manifest as the scripts read it

    The entries of a manifest text are what the patterns of
    [clean_xcode_project.py] find in it. *)

(** (identifier, display name) of each PBXFileReference entry *)
Definition file_references (content : str) : list (str * str) :=
  (fun m => (Re.group 2 m, Re.group 3 m))
    <$> Re.finditer clean_xcode_project.file_ref_pattern content.

(** (identifier, display name, fileRef) of each PBXBuildFile entry *)
Definition build_file_entries (content : str) : list (str * str * str) :=
  (fun m => (Re.group 2 m, Re.group 3 m, Re.group 4 m))
    <$> Re.finditer clean_xcode_project.build_ref_pattern content.

(** The identifiers on the lines of each [children = (...)] list. *)
Definition group_children (content : str) : list (list str) :=
  (fun m =>
     omap (fun line => Re.group 1 <$> Re.search clean_xcode_project.id_pattern line)
       (Py.split NL (Re.group 1 m)))
    <$> Re.finditer clean_xcode_project.children_pattern content.

(** The identifiers on the lines of the [files = (...)] list of each
    Sources phase. *)
Definition phase_files (content : str) : list (list str) :=
  (fun m =>
     omap (fun line => Re.group 1 <$> Re.search clean_xcode_project.id_pattern line)
       (Py.split NL (Re.group 1 m)))
    <$> Re.finditer clean_xcode_project.sources_pattern content.


(** The display names [sync] takes as tracked. *)
Definition tracked (content : str) : gset str :=
  sync_xcode_project.get_existing_files content.

(** A text from its lines, each ended by a newline. *)
Definition text (lines : list str) : str :=
  concat ((fun l => l ++ [NL]) <$> lines).

(** ** Sample manifests *)

Definition id_a1 : str := txt "AAAAAAAAAAAAAAAAAAAAAAA1".
Definition id_a2 : str := txt "AAAAAAAAAAAAAAAAAAAAAAA2".
Definition id_b1 : str := txt "BBBBBBBBBBBBBBBBBBBBBBB1".
Definition id_b2 : str := txt "BBBBBBBBBBBBBBBBBBBBBBB2".

(** A manifest with the four sections, the root group and the Views
    group, tracking [build_files] and [file_refs] with the given
    children of Views and files of Sources. *)
Definition manifest_lines (build_files file_refs views_children sources_files : list str)
  : list str :=
  [txt "/* Begin PBXBuildFile section */"] ++ build_files ++
  [end_build_file;
   txt "/* Begin PBXFileReference section */"] ++ file_refs ++
  [end_file_reference;
   txt "/* Begin PBXGroup section */";
   tabs 2 ++ root_group ++ txt " = {";
   tabs 3 ++ txt "isa = PBXGroup;";
   tabs 3 ++ txt "children = (";
   tabs 4 ++ views_group ++ txt ",";
   tabs 3 ++ txt ");";
   tabs 2 ++ txt "};";
   tabs 2 ++ views_group ++ txt " = {";
   tabs 3 ++ txt "isa = PBXGroup;";
   tabs 3 ++ txt "children = ("] ++ views_children ++
  [tabs 3 ++ txt ");";
   tabs 2 ++ txt "};";
   txt "/* End PBXGroup section */";
   txt "/* Begin PBXSourcesBuildPhase section */";
   tabs 2 ++ sources_phase ++ txt " = {";
   tabs 3 ++ txt "isa = PBXSourcesBuildPhase;";
   tabs 3 ++ txt "files = ("] ++ sources_files ++
  [tabs 3 ++ txt ");";
   tabs 2 ++ txt "};";
   txt "/* End PBXSourcesBuildPhase section */"].

Definition manifest (build_files file_refs views_children sources_files : list str) : str :=
  text (manifest_lines build_files file_refs views_children sources_files).

(** Tracks [A.swift] and [B.swift], both under [Views/]. *)
Definition manifest_ab : str :=
  manifest
    [build_ref_entry id_b1 (txt "A.swift") id_a1;
     build_ref_entry id_b2 (txt "B.swift") id_a2]
    [file_ref_entry id_a1 (txt "A.swift") (txt "Views/A.swift");
     file_ref_entry id_a2 (txt "B.swift") (txt "Views/B.swift")]
    [child_entry id_a1 (txt "A.swift"); child_entry id_a2 (txt "B.swift")]
    [source_entry id_b1 (txt "A.swift"); source_entry id_b2 (txt "B.swift")].

(** Tracks [A.swift] alone. *)
Definition manifest_a : str :=
  manifest
    [build_ref_entry id_b1 (txt "A.swift") id_a1]
    [file_ref_entry id_a1 (txt "A.swift") (txt "Views/A.swift")]
    [child_entry id_a1 (txt "A.swift")]
    [source_entry id_b1 (txt "A.swift")].




(** [D.swift] entered twice with the same lines. *)
Definition manifest_twice : str :=
  manifest
    [build_ref_entry id_b1 (txt "D.swift") id_a1;
     build_ref_entry id_b1 (txt "D.swift") id_a1]
    [file_ref_entry id_a1 (txt "D.swift") (txt "Views/D.swift");
     file_ref_entry id_a1 (txt "D.swift") (txt "Views/D.swift")]
    [child_entry id_a1 (txt "D.swift")]
    [source_entry id_b1 (txt "D.swift")].

(** A world whose manifest file holds [content]. *)
Definition world_of (content : str) : world :=
  World {[ project_file := content ]} [].

(** The draws 0, 1, 2, ... *)
Definition counting : nat -> N := N.of_nat.

(** Draws that differ in the digits an identifier keeps. *)
Definition spread (n : nat) : N := (N.of_nat (S n) * 2 ^ 40)%N.

(** ** Lines of a text *)

(** The first line of a text, without its newline. *)
Fixpoint first_line (x : str) : str :=
  match x with
  | [] => []
  | a :: x' => if ascii_eqb a NL then [] else a :: first_line x'
  end.

(** The text after the first line and its newline. *)
Fixpoint after_line (x : str) : str :=
  match x with
  | [] => []
  | a :: x' => if ascii_eqb a NL then x' else after_line x'
  end.

(** A line with its newline, and a last line without one. *)
Definition ended_line (l : str) : Prop := exists b, l = b ++ [NL] /\ NL ∉ b.
Definition open_line (l : str) : Prop := l <> [] /\ NL ∉ l.

(** The lines of a text: each ends with the only newline it holds,
    except that the last may be non-empty without a newline. *)
Inductive lines_ok : list str -> Prop :=
| lines_ok_nil : lines_ok []
| lines_ok_last l : open_line l -> lines_ok [l]
| lines_ok_cons l ls : ended_line l -> lines_ok ls -> lines_ok (l :: ls).

(** ** What [clean] keeps and cuts *)

(** The matches whose display name was seen, in [seen] or in an
    earlier match. *)
Fixpoint duplicates (seen : gset str) (ms : list Re.mobj) : list Re.mobj :=
  match ms with
  | [] => []
  | m :: rest =>
      if bool_decide (Re.group 3 m ∈ seen) then m :: duplicates seen rest
      else duplicates ({[Re.group 3 m]} ∪ seen) rest
  end.

(** The first match with the display name [n]. *)
Fixpoint first_named (n : str) (ms : list Re.mobj) : option Re.mobj :=
  match ms with
  | [] => None
  | m :: rest => if bool_decide (Re.group 3 m = n) then Some m else first_named n rest
  end.

(** The text without the line of the entry [m]. *)
Definition cut (content : str) (m : Re.mobj) : str :=
  Py.replace (Re.group 1 m ++ [NL]) [] content.

(** The first 24-digit identifier on a line of a list. *)
Definition line_id (line : str) : option str :=
  Re.group 1 <$> Re.search clean_xcode_project.id_pattern line.

(** The identifiers on the lines of a list. *)
Definition line_ids (lines : list str) : list str := omap line_id lines.

(** The value of an upper-case hexadecimal digit. *)
Definition hex_value (c : ascii) : N :=
  let n := N.of_nat (nat_of_ascii c) in
  if (n <=? 57)%N then (n - 48)%N else (n - 55)%N.

(** A name of one line at least one character long. *)
Definition plain_name (n : str) : Prop := n <> [] /\ NL ∉ n.

(** A match found after skipping [p] more. *)
Definition skipping (p : str) (m : Re.mobj) : Re.mobj :=
  Re.Match (p ++ Re.before m) (Re.whole m) (Re.groups m) (Re.after m).

(** ** Further notions

    What the further properties below are stated with. *)

Definition BACKSLASH : ascii := "092"%char.

(** The entries that the loop over the scan writes into [file_data],
    one for each scanned file, the [i]-th with the draws [2i] and
    [2i+1]. *)
Fixpoint scanned_entries (rng : nat -> N) (i : nat) (files : list (str * str))
  : list (str * rebuild_xcode_project.data) :=
  match files with
  | [] => []
  | (name, path) :: rest =>
      (name,
       rebuild_xcode_project.Data path
         (rebuild_xcode_project.generate_uuid (rng (2 * i)%nat))
         (rebuild_xcode_project.generate_uuid (rng (2 * i + 1)%nat)))
      :: scanned_entries rng (S i) rest
  end.

(** [y] is [x] with texts put in, each at a place where what is left of
    [x] satisfies [P]. *)
Inductive inserted (P : str -> Prop) : str -> str -> Prop :=
| inserted_nil : inserted P [] []
| inserted_keep (a : ascii) (x y : str) : inserted P x y -> inserted P (a :: x) (a :: y)
| inserted_here (t x y : str) : P x -> inserted P x y -> inserted P x (t ++ y).

(** Where the greedy [[^)]+] of a list pattern stops: at the end of the
    text or before a closing parenthesis. *)
Definition list_end (x : str) : Prop := x = [] \/ exists x', x = ")"%char :: x'.

(** The comment by which [add_files_to_xcode.py] knows a file again,
    with the blank that follows it in a FileReference entry. *)
Definition name_comment (name : str) : str := txt "/* " ++ name ++ txt " */ ".

(** Two states of the loop of [add_files_to_xcode.py] with the same
    files and the same number of draws taken. *)
Definition same_files (st1 st2 : world * nat) : Prop :=
  files (fst st1) = files (fst st2) /\ snd st1 = snd st2.

(** * Properties *)

(** ** Facts about the string methods *)
Section py_facts.

Lemma ascii_eqb_true (a b : ascii) : ascii_eqb a b = true <-> a = b.
Proof. unfold ascii_eqb. apply bool_decide_eq_true. Qed.

Lemma ascii_eqb_false (a b : ascii) : ascii_eqb a b = false <-> a <> b.
Proof. unfold ascii_eqb. apply bool_decide_eq_false. Qed.

Lemma ascii_eqb_refl (a : ascii) : ascii_eqb a a = true.
Proof. by apply ascii_eqb_true. Qed.

Lemma startswith_true (p x : str) :
  Py.startswith p x = true <-> exists y, x = p ++ y.
Proof.
  revert x. induction p as [|a p IH]; intros x; simpl.
  - split; [intros _; by exists x | done].
  - destruct x as [|b x].
    + split; [done | intros [y Hy]; discriminate].
    + rewrite andb_true_iff, ascii_eqb_true, IH. split.
      * intros [-> [y ->]]. by exists y.
      * intros [y Hy]. injection Hy as -> ->. eauto.
Qed.

Lemma startswith_app (p y : str) : Py.startswith p (p ++ y) = true.
Proof. apply startswith_true. by exists y. Qed.

Lemma startswith_nil (p : str) : Py.startswith p [] = true <-> p = [].
Proof. destruct p; simpl; split; done. Qed.

Lemma contains_true (p x : str) :
  Py.contains p x = true <-> exists a b, x = a ++ p ++ b.
Proof.
  induction x as [|c x IH]; simpl.
  - rewrite startswith_nil. split.
    + intros ->. by exists [], [].
    + intros (a & b & H). symmetry in H.
      apply app_eq_nil in H as [_ H]. by apply app_eq_nil in H as [H _].
  - rewrite orb_true_iff, startswith_true, IH. split.
    + intros [[y Hy] | (a & b & ->)].
      * exists [], y. by rewrite Hy.
      * by exists (c :: a), b.
    + intros (a & b & H). destruct a as [|c' a]; simpl in H.
      * left. by exists b.
      * right. injection H as -> ->. by exists a, b.
Qed.

Lemma contains_app_l (p x y : str) :
  Py.contains p x = true -> Py.contains p (x ++ y) = true.
Proof.
  rewrite !contains_true. intros (a & b & ->).
  exists a, (b ++ y). by rewrite <- !app_assoc.
Qed.

Lemma contains_app_r (p x y : str) :
  Py.contains p y = true -> Py.contains p (x ++ y) = true.
Proof.
  rewrite !contains_true. intros (a & b & ->).
  exists (x ++ a), b. by rewrite <- !app_assoc.
Qed.

Lemma contains_self_app (p a b : str) : Py.contains p (a ++ p ++ b) = true.
Proof. apply contains_true. by exists a, b. Qed.

Lemma contains_trans (p q x : str) :
  Py.contains p q = true -> Py.contains q x = true -> Py.contains p x = true.
Proof.
  rewrite !contains_true. intros (a & b & ->) (a' & b' & ->).
  exists (a' ++ a), (b ++ b'). by rewrite <- !app_assoc.
Qed.

Lemma contains_cons_false (p : str) (c : ascii) (x : str) :
  Py.contains p (c :: x) = false -> Py.contains p x = false.
Proof. simpl. by intros [_ ?]%orb_false_iff. Qed.



End py_facts.

(** ** Facts about lines *)
Section line_facts.

Lemma first_after_line (x : str) :
  x = first_line x ++ (if bool_decide (NL ∈ x) then NL :: after_line x else []).
Proof.
  induction x as [|a x IH]; [done|]. simpl.
  destruct (ascii_eqb a NL) eqn:E.
  - apply ascii_eqb_true in E as ->. rewrite bool_decide_eq_true_2; [done | left].
  - apply ascii_eqb_false in E. simpl. rewrite IH at 1. f_equal.
    destruct (bool_decide (NL ∈ x)) eqn:E'.
    + rewrite bool_decide_eq_true_2; [done|]. apply bool_decide_eq_true in E'. by right.
    + rewrite bool_decide_eq_false_2; [done|]. apply bool_decide_eq_false in E'.
      intros [?|?]%elem_of_cons; congruence.
Qed.

Lemma first_line_no_nl (x : str) : NL ∉ first_line x.
Proof.
  induction x as [|a x IH]; simpl; [apply not_elem_of_nil|].
  destruct (ascii_eqb a NL) eqn:E; [apply not_elem_of_nil|].
  apply ascii_eqb_false in E. intros [?|?]%elem_of_cons; congruence.
Qed.

Lemma first_line_id (x : str) : NL ∉ x -> first_line x = x.
Proof.
  induction x as [|a x IH]; [done|]. intros H. simpl.
  apply not_elem_of_cons in H as [H1 H2].
  destruct (ascii_eqb a NL) eqn:E; [apply ascii_eqb_true in E; congruence|].
  by rewrite IH.
Qed.

Lemma after_line_no_nl (x : str) : NL ∉ x -> after_line x = [].
Proof.
  induction x as [|a x IH]; [done|]. intros H. simpl.
  apply not_elem_of_cons in H as [H1 H2].
  destruct (ascii_eqb a NL) eqn:E; [apply ascii_eqb_true in E; congruence|].
  by apply IH.
Qed.

Lemma after_line_length (x : str) : length (after_line x) <= length x.
Proof.
  induction x as [|a x IH]; simpl; [lia|]. destruct (ascii_eqb a NL); simpl; lia.
Qed.

Lemma after_line_shorter (x : str) : x <> [] -> length (after_line x) < length x.
Proof.
  destruct x as [|a x]; [done|]. intros _. simpl.
  pose proof (after_line_length x). destruct (ascii_eqb a NL); simpl; lia.
Qed.

Lemma readlines_step (x : str) :
  x <> [] ->
  Py.readlines x =
    (first_line x ++ if bool_decide (NL ∈ x) then [NL] else [])
      :: Py.readlines (after_line x).
Proof.
  induction x as [|a x IH]; [done|]. intros _. simpl.
  destruct (ascii_eqb a NL) eqn:E.
  - apply ascii_eqb_true in E as ->. rewrite bool_decide_eq_true_2; [done | left].
  - apply ascii_eqb_false in E. destruct x as [|b x].
    + simpl. rewrite bool_decide_eq_false_2; [done|].
      intros [?|?%elem_of_nil]%elem_of_cons; congruence.
    + rewrite IH by done. simpl. do 2 f_equal.
      destruct (bool_decide (NL ∈ b :: x)) eqn:E'.
      * rewrite bool_decide_eq_true_2; [done|]. apply bool_decide_eq_true in E'. by right.
      * rewrite bool_decide_eq_false_2; [done|]. apply bool_decide_eq_false in E'.
        intros [?|?]%elem_of_cons; congruence.
Qed.

Lemma readlines_no_nl (x : str) : x <> [] -> NL ∉ x -> Py.readlines x = [x].
Proof.
  intros Hx Hnl. rewrite readlines_step by done.
  rewrite bool_decide_eq_false_2 by done. rewrite app_nil_r, first_line_id by done.
  by rewrite after_line_no_nl.
Qed.

Lemma concat_readlines (x : str) : concat (Py.readlines x) = x.
Proof.
  induction x as [|a x IH]; [done|]. simpl.
  destruct (ascii_eqb a NL); simpl; [by rewrite IH|].
  destruct (Py.readlines x) as [|h t] eqn:E; simpl in *; by rewrite <- IH.
Qed.

Lemma readlines_ended (b y : str) :
  NL ∉ b -> Py.readlines (b ++ NL :: y) = (b ++ [NL]) :: Py.readlines y.
Proof.
  induction b as [|a b IH]; intros H; simpl.
  - done.
  - apply not_elem_of_cons in H as [H1 H2].
    destruct (ascii_eqb a NL) eqn:E; [apply ascii_eqb_true in E; congruence|].
    by rewrite IH.
Qed.

Lemma readlines_concat (ls : list str) :
  lines_ok ls -> Py.readlines (concat ls) = ls.
Proof.
  induction 1 as [|l [Hne Hnl]|l ls (b & -> & Hb) _ IH]; simpl.
  - done.
  - rewrite app_nil_r. by apply readlines_no_nl.
  - rewrite <- app_assoc. simpl. rewrite readlines_ended by done. by rewrite IH.
Qed.

Lemma readlines_ok (x : str) : lines_ok (Py.readlines x).
Proof.
  remember (length x) as k eqn:Hk. revert x Hk.
  induction k as [k IH] using lt_wf_ind. intros x ->.
  destruct (decide (x = [])) as [->|Hx]; [constructor|].
  rewrite readlines_step by done.
  destruct (bool_decide (NL ∈ x)) eqn:E.
  - apply lines_ok_cons.
    + exists (first_line x). split; [done | apply first_line_no_nl].
    + eapply IH; [|done]. by apply after_line_shorter.
  - apply bool_decide_eq_false in E. rewrite app_nil_r.
    rewrite first_line_id by done.
    pose proof (readlines_no_nl x Hx E) as H. rewrite readlines_step in H by done.
    injection H as _ ->. by apply lines_ok_last.
Qed.

Lemma lines_ok_ended (ls : list str) : Forall ended_line ls -> lines_ok ls.
Proof. induction 1; by constructor. Qed.

Lemma lines_ok_inv (l : str) (ls : list str) : lines_ok (l :: ls) -> lines_ok ls.
Proof. inversion 1; subst; [constructor | done]. Qed.

Lemma lines_ok_sublist (ks ls : list str) : sublist ks ls -> lines_ok ls -> lines_ok ks.
Proof.
  induction 1 as [|l ks ls Hs IH|l ks ls Hs IH]; intros Hok.
  - done.
  - inversion Hok as [|? Hl|? ? Hl Hls]; subst.
    + apply sublist_nil_r in Hs as ->. by apply lines_ok_last.
    + apply lines_ok_cons; auto.
  - eauto using lines_ok_inv.
Qed.

End line_facts.

(** ** The pattern [.*NAME.*\n?] of [remove_missing_files]

    For a name that is not empty and holds no newline, the pattern
    matches at the start of a line exactly when the line holds the name,
    and the match is the whole line with its newline. *)
Section line_pattern_facts.

Variable n : str.
Hypothesis n_nonempty : n <> [].
Hypothesis n_one_line : NL ∉ n.

Let nl (a : ascii) : bool := ascii_eqb a NL.

Lemma matches_opt_nl (x : str) (c : Re.caps) :
  Re.matches [Re.opt nl] x c = Some (if Py.startswith [NL] x then drop 1 x else x, c).
Proof.
  unfold Re.opt. simpl. destruct x as [|a x]; [done|]. simpl. unfold nl.
  destruct (ascii_eqb a NL) eqn:E.
  - apply ascii_eqb_true in E as ->. simpl. destruct x; simpl; [done|].
    by rewrite andb_false_r.
  - simpl. by rewrite (proj2 (ascii_eqb_false NL a)) by (apply ascii_eqb_false in E; congruence).
Qed.

Lemma matches_rest_of_line (k : nat) (x : str) (c : Re.caps) :
  Re.rep (fun x' => Re.matches [Re.opt nl] x' c) Re.dot 0 None true k x
  = Some (after_line x, c).
Proof.
  revert k. induction x as [|a x IH]; intros k.
  - done.
  - simpl. unfold Re.dot. destruct (ascii_eqb a NL) eqn:E; simpl.
    + unfold nl. rewrite E. simpl. apply ascii_eqb_true in E as ->.
      destruct x; simpl; [done|]. by rewrite andb_false_r.
    + by rewrite IH.
Qed.

Lemma matches_rest (x : str) (c : Re.caps) :
  Re.matches [Re.star Re.dot; Re.opt nl] x c = Some (after_line x, c).
Proof. apply matches_rest_of_line. Qed.

Lemma matches_lit (l : str) (r : Re.regex) (x : str) (c : Re.caps) :
  Re.matches (Re.Lit l :: r) x c
  = if Py.startswith l x then Re.matches r (drop (length l) x) c else None.
Proof. done. Qed.

Lemma startswith_first_line (x : str) :
  Py.startswith n (first_line x) = Py.startswith n x.
Proof.
  clear n_nonempty. revert x. induction n as [|a p IH]; intros x; [done|].
  apply not_elem_of_cons in n_one_line as [H1 H2].
  destruct x as [|b x]; [done|]. simpl.
  destruct (ascii_eqb b NL) eqn:E.
  - apply ascii_eqb_true in E as ->. simpl.
    by rewrite (proj2 (ascii_eqb_false a NL)) by congruence.
  - simpl. by rewrite IH.
Qed.

Lemma after_line_drop (x : str) :
  Py.startswith n x = true -> after_line (drop (length n) x) = after_line x.
Proof.
  clear n_nonempty. revert x. induction n as [|a p IH]; intros x; [done|].
  apply not_elem_of_cons in n_one_line as [H1 H2].
  destruct x as [|b x]; [done|]. simpl.
  intros [->%ascii_eqb_true H]%andb_true_iff.
  rewrite (proj2 (ascii_eqb_false b NL)) by congruence. by apply IH.
Qed.

Lemma startswith_nl (x : str) : Py.startswith n (NL :: x) = false.
Proof.
  destruct n as [|a p]; [done|]. simpl.
  apply not_elem_of_cons in n_one_line as [H1 H2].
  by rewrite (proj2 (ascii_eqb_false a NL)) by congruence.
Qed.

Lemma matches_from_name (x : str) (c : Re.caps) :
  Re.matches [Re.Lit n; Re.star Re.dot; Re.opt nl] x c
  = if Py.startswith n x then Some (after_line x, c) else None.
Proof.
  rewrite matches_lit. destruct (Py.startswith n x) eqn:E; [|done].
  by rewrite matches_rest, after_line_drop.
Qed.

Lemma matches_line_from (k : nat) (x : str) (c : Re.caps) :
  Re.rep (fun x' => Re.matches [Re.Lit n; Re.star Re.dot; Re.opt nl] x' c)
    Re.dot 0 None true k x
  = if Py.contains n (first_line x) then Some (after_line x, c) else None.
Proof.
  revert k. induction x as [|a x IH]; intros k.
  - cbn [Re.rep Nat.leb]. rewrite matches_from_name. simpl.
    by destruct (Py.startswith n []).
  - destruct (ascii_eqb a NL) eqn:E.
    + assert (Hfl : first_line (a :: x) = []) by (simpl; by rewrite E).
      assert (Hal : after_line (a :: x) = x) by (simpl; by rewrite E).
      rewrite Hfl, Hal. cbn [Re.rep Nat.leb]. unfold Re.dot at 1. rewrite E.
      cbn [negb andb]. apply ascii_eqb_true in E as ->.
      rewrite matches_from_name, startswith_nl. simpl.
      destruct (Py.startswith n []) eqn:E'; [|done].
      by apply startswith_nil in E'.
    + assert (Hfl : first_line (a :: x) = a :: first_line x) by (simpl; by rewrite E).
      assert (Hal : after_line (a :: x) = after_line x) by (simpl; by rewrite E).
      rewrite Hal. cbn [Re.rep Nat.leb Re.below]. unfold Re.dot at 1. rewrite E.
      cbn [negb andb]. rewrite IH, Hfl. cbn [Py.contains].
      destruct (Py.contains n (first_line x)); [by rewrite orb_true_r|].
      rewrite orb_false_r, matches_from_name, <- Hfl, startswith_first_line.
      by rewrite Hal.
Qed.

Lemma matches_line (x : str) (c : Re.caps) :
  Re.matches (sync_xcode_project.line_pattern n) x c
  = if Py.contains n (first_line x) then Some (after_line x, c) else None.
Proof. apply matches_line_from. Qed.

Lemma search_unfold (r : Re.regex) (x : str) :
  Re.search r x =
    match Re.matches r x Re.no_caps with
    | Some (rest, c) =>
        Some (Re.Match [] (take (length x - length rest) x) (Re.closed c) rest)
    | None =>
        match x with
        | [] => None
        | a :: x' => skipping [a] <$> Re.search r x'
        end
    end.
Proof.
  destruct x as [|a x]; simpl; [done|].
  destruct (Re.matches r (a :: x) Re.no_caps) as [[]|]; [done|].
  by destruct (Re.search r x).
Qed.

Lemma search_line_hit (x : str) :
  Py.contains n (first_line x) = true ->
  Re.search (sync_xcode_project.line_pattern n) x
  = Some (Re.Match [] (take (length x - length (after_line x)) x) [] (after_line x)).
Proof.
  intros H. by rewrite search_unfold, matches_line, H.
Qed.

Lemma search_line_miss (x : str) :
  Py.contains n (first_line x) = false ->
  Re.search (sync_xcode_project.line_pattern n) x
  = if bool_decide (NL ∈ x)
    then skipping (first_line x ++ [NL])
           <$> Re.search (sync_xcode_project.line_pattern n) (after_line x)
    else None.
Proof.
  induction x as [|a x IH]; intros H.
  - by rewrite search_unfold, matches_line, H.
  - rewrite search_unfold, matches_line, H.
    destruct (ascii_eqb a NL) eqn:E.
    + assert (Hal : after_line (a :: x) = x) by (simpl; by rewrite E).
      assert (Hfl : first_line (a :: x) = []) by (simpl; by rewrite E).
      rewrite Hal, Hfl. apply ascii_eqb_true in E as ->.
      rewrite bool_decide_eq_true_2 by left.
      by destruct (Re.search _ x).
    + assert (Hal : after_line (a :: x) = after_line x) by (simpl; by rewrite E).
      assert (Hfl : first_line (a :: x) = a :: first_line x) by (simpl; by rewrite E).
      rewrite Hal. rewrite Hfl in H |- *. apply contains_cons_false in H.
      rewrite IH by done. apply ascii_eqb_false in E.
      destruct (bool_decide (NL ∈ x)) eqn:E'.
      * rewrite bool_decide_eq_true_2
          by (apply bool_decide_eq_true in E'; by right).
        by destruct (Re.search _ (after_line x)).
      * rewrite bool_decide_eq_false_2; [done|].
        apply bool_decide_eq_false in E'.
        intros [?|?]%elem_of_cons; congruence.
Qed.

Lemma contains_ended (l : str) : Py.contains n (l ++ [NL]) = Py.contains n l.
Proof.
  induction l as [|a l IH].
  - simpl. rewrite startswith_nl, orb_false_l. done.
  - cbn [app Py.contains]. rewrite IH. f_equal.
    clear IH. revert a l. clear n_nonempty.
    induction n as [|b p IHp]; intros a l; [done|].
    apply not_elem_of_cons in n_one_line as [H1 H2]. simpl. f_equal.
    destruct l as [|a' l]; simpl.
    + destruct p as [|b' p]; [done|]. simpl.
      apply not_elem_of_cons in H2 as [H2 _].
      by rewrite (proj2 (ascii_eqb_false b' NL)) by congruence.
    + by apply IHp.
Qed.

(** [re.sub] with the pattern of a name drops the lines that hold the
    name and keeps the other lines as they are. *)
Lemma sub_from_unfold (fuel : nat) (r : Re.regex) (repl : Re.mobj -> str) (x : str) :
  Re.sub_from (S fuel) r repl x =
    match Re.search r x with
    | None => x
    | Some m =>
        Re.before m ++ repl m ++
        match Re.whole m, Re.after m with
        | [], [] => []
        | [], a :: rest => a :: Re.sub_from fuel r repl rest
        | _ :: _, rest => Re.sub_from fuel r repl rest
        end
    end.
Proof. done. Qed.

Lemma sub_line (k : nat) (x : str) (fuel : nat) :
  length x <= k -> length x < fuel ->
  Re.sub_from fuel (sync_xcode_project.line_pattern n) (fun _ => []) x
  = concat (filter (fun l => Py.contains n l = false) (Py.readlines x)).
Proof.
  revert x fuel. induction k as [k IH] using lt_wf_ind. intros x fuel Hk Hfuel.
  destruct fuel as [|fuel]; [lia|].
  destruct (decide (x = [])) as [->|Hx].
  { rewrite sub_from_unfold, search_unfold, matches_line. simpl.
    destruct (Py.startswith n []) eqn:E; [by apply startswith_nil in E|done]. }
  rewrite readlines_step by done.
  pose proof (after_line_shorter x Hx) as Hshort.
  destruct (Py.contains n (first_line x)) eqn:E.
  - rewrite sub_from_unfold, search_line_hit by done. cbn [Re.before Re.whole Re.after].
    rewrite filter_cons_False
      by (rewrite contains_app_l by done; done).
    destruct (take (length x - length (after_line x)) x) eqn:Et.
    { apply (f_equal length) in Et. rewrite length_take in Et. simpl in Et. lia. }
    simpl. apply (IH (length (after_line x))); lia.
  - destruct (bool_decide (NL ∈ x)) eqn:Enl.
    + rewrite filter_cons_True by (by rewrite contains_ended).
      simpl. rewrite <- (IH (length (after_line x)) ltac:(lia) _ (S fuel)) by lia.
      rewrite !sub_from_unfold, search_line_miss, Enl by done.
      destruct (Re.search _ (after_line x)) as [m|]; simpl.
      * by rewrite <- !app_assoc.
      * rewrite (first_after_line x) at 1. rewrite Enl. by rewrite <- app_assoc.
    + rewrite sub_from_unfold, search_line_miss, Enl by done.
      apply bool_decide_eq_false in Enl.
      rewrite app_nil_r, first_line_id in * by done.
      rewrite filter_cons_True by done. simpl.
      by rewrite after_line_no_nl, app_nil_r by done.
Qed.

(** The characterization of [remove_lines]. *)
Lemma remove_lines_filter (x : str) :
  sync_xcode_project.remove_lines n x
  = concat (filter (fun l => Py.contains n l = false) (Py.readlines x)).
Proof. apply (sub_line (length x)); lia. Qed.

End line_pattern_facts.

(** ** Facts about [remove_from_xcode.py] *)
Section remove_facts.

Import remove_from_xcode.

Lemma filter_lines_cons (name : str) (skip : bool) (l : str) (lines : list str) :
  filter_lines name skip (l :: lines) =
    if Py.contains name l then
      let skip :=
        if Py.contains (txt "{") l && negb (Py.contains (txt "}") l)
        then true else skip in
      ((filter_lines name skip lines).1, S (filter_lines name skip lines).2)
    else if skip then filter_lines name (negb (Py.contains (txt "}") l)) lines
    else (l :: (filter_lines name false lines).1, (filter_lines name false lines).2).
Proof.
  cbn [filter_lines]. destruct (Py.contains name l); [by destruct (filter_lines _ _ _)|].
  destruct skip; [done|]. by destruct (filter_lines _ _ _).
Qed.

Lemma filter_lines_kept (name : str) (skip : bool) (lines : list str) :
  sublist (filter_lines name skip lines).1 lines
  /\ Forall (fun l => Py.contains name l = false) (filter_lines name skip lines).1
  /\ (filter_lines name skip lines).2
     = length (filter (fun l => Py.contains name l = true) lines).
Proof.
  revert skip. induction lines as [|l lines IH]; intros skip.
  - simpl. split; [done|]. split; [constructor|done].
  - rewrite filter_lines_cons. destruct (Py.contains name l) eqn:E.
    + cbv zeta. set (b := if _ && _ then true else skip).
      destruct (IH b) as (H1 & H2 & H3). cbn [fst snd].
      rewrite filter_cons_True by done. simpl.
      split; [by apply sublist_cons|]. split; [done|]. by rewrite H3.
    + rewrite filter_cons_False by (by rewrite E). destruct skip.
      * destruct (IH (negb (Py.contains (txt "}") l))) as (H1 & H2 & H3).
        split; [by apply sublist_cons|]. done.
      * destruct (IH false) as (H1 & H2 & H3). cbn [fst snd].
        split; [by apply sublist_skip|]. split; [by constructor|done].
Qed.

(** When no line that holds the name opens a multi-line entry, the
    lines kept are exactly the lines that do not hold the name. *)
Lemma filter_lines_one_line_entries (name : str) (lines : list str) :
  Forall (fun l => Py.contains name l = true ->
                   Py.contains (txt "{") l && negb (Py.contains (txt "}") l) = false)
    lines ->
  (filter_lines name false lines).1
  = filter (fun l => Py.contains name l = false) lines.
Proof.
  induction 1 as [|l lines Hl _ IH]; [done|]. rewrite filter_lines_cons.
  destruct (Py.contains name l) eqn:E.
  - rewrite Hl by done. by rewrite filter_cons_False by (by rewrite E).
  - rewrite filter_cons_True by done. cbn [fst]. by rewrite IH.
Qed.

Lemma remove_file_found (path : string) (name : str) (w : world) (content : str) :
  read_file path w = Some content ->
  Exists (fun l => Py.contains name l = true) (Py.readlines content) ->
  remove_file_from_project path name w
  = Some (write_file path
            (concat (filter_lines name false (Py.readlines content)).1)
            (print (RemovedReferences
                      (filter_lines name false (Py.readlines content)).2 name) w)).
Proof.
  intros Hread Hex. unfold remove_file_from_project. rewrite Hread. simpl.
  destruct (filter_lines_kept name false (Py.readlines content)) as (_ & _ & Hc).
  destruct (filter_lines name false (Py.readlines content)) as [kept count].
  simpl in *. rewrite bool_decide_eq_true_2; [done|].
  rewrite Hc. apply Exists_exists in Hex as (l & Hl & Hn).
  assert (l ∈ filter (fun l => Py.contains name l = true) (Py.readlines content))
    as Hin by (by apply list_elem_of_filter).
  destruct (filter _ _); [by apply elem_of_nil in Hin | simpl; lia].
Qed.

Lemma remove_file_not_found (path : string) (name : str) (w : world) (content : str) :
  read_file path w = Some content ->
  Forall (fun l => Py.contains name l = false) (Py.readlines content) ->
  remove_file_from_project path name w = Some (print (NoReferencesFound name) w).
Proof.
  intros Hread Hall. unfold remove_file_from_project. rewrite Hread. simpl.
  destruct (filter_lines_kept name false (Py.readlines content)) as (_ & _ & Hc).
  destruct (filter_lines name false (Py.readlines content)) as [kept count].
  simpl in *. rewrite bool_decide_eq_false_2; [done|].
  rewrite Hc. clear Hc. induction Hall as [|l ls Hl _ IH]; [simpl; lia|].
  by rewrite filter_cons_False by (by rewrite Hl).
Qed.

Lemma remove_file_spec (path : string) (name : str) (w : world) (content : str) :
  read_file path w = Some content ->
  exists w1 c1,
    remove_file_from_project path name w = Some w1
    /\ read_file path w1 = Some c1
    /\ sublist (Py.readlines c1) (Py.readlines content)
    /\ Forall (fun l => Py.contains name l = false) (Py.readlines c1)
    /\ (forall p, p <> path -> files w1 !! p = files w !! p)
    /\ length (stdout w1) = S (length (stdout w)).
Proof.
  intros Hread.
  destruct (decide (Exists (fun l => Py.contains name l = true) (Py.readlines content)))
    as [Hex|Hno].
  - destruct (filter_lines_kept name false (Py.readlines content)) as (H1 & H2 & _).
    eexists _, _. split; [by apply remove_file_found|].
    assert (Py.readlines (concat (filter_lines name false (Py.readlines content)).1)
            = (filter_lines name false (Py.readlines content)).1) as Hrl.
    { apply readlines_concat. eapply lines_ok_sublist; [done | apply readlines_ok]. }
    split; [apply lookup_insert_eq|]. rewrite Hrl. split; [done|]. split; [done|].
    split; [intros p Hp; simpl; by rewrite lookup_insert_ne|].
    simpl. rewrite length_app. simpl. lia.
  - apply not_Exists_Forall in Hno; [|intros l; apply _].
    assert (Forall (fun l => Py.contains name l = false) (Py.readlines content)) as Hall.
    { eapply Forall_impl; [done|]. simpl. intros l. by destruct (Py.contains name l). }
    exists (print (NoReferencesFound name) w), content.
    split; [by apply (remove_file_not_found _ _ _ content)|].
    split; [done|]. split; [done|]. split; [done|]. split; [done|].
    simpl. rewrite length_app. simpl. lia.
Qed.


End remove_facts.

(** ** Entries hold their display name *)
Section entry_facts.






End entry_facts.

(** ** Removing several names in [sync] *)
Section remove_all_facts.

Import sync_xcode_project.

Lemma remove_all_filter (names : list str) (x : str) :
  Forall plain_name names ->
  foldl (fun content filename => remove_lines filename content) x names
  = concat (filter (fun l => Forall (fun n => Py.contains n l = false) names)
              (Py.readlines x)).
Proof.
  intros Hnames. revert x. induction Hnames as [|n names [Hne Hnl] _ IH]; intros x.
  - simpl. rewrite <- (concat_readlines x) at 1. f_equal. symmetry.
    induction (Py.readlines x) as [|l ls IHl]; [done|].
    rewrite filter_cons_True by constructor. by rewrite IHl.
  - simpl. rewrite IH, remove_lines_filter by done. f_equal.
    rewrite readlines_concat
      by (eapply lines_ok_sublist; [apply sublist_filter | apply readlines_ok]).
    rewrite list_filter_filter. apply list_filter_iff. intros l.
    rewrite Forall_cons. tauto.
Qed.

(** The order in which the names are taken does not matter. *)
Lemma remove_all_order (names names' : list str) (x : str) :
  Forall plain_name names -> names ≡ₚ names' ->
  foldl (fun content filename => remove_lines filename content) x names
  = foldl (fun content filename => remove_lines filename content) x names'.
Proof.
  intros Hplain Hperm. rewrite !remove_all_filter by (by rewrite <- ?Hperm).
  f_equal. apply list_filter_iff. intros l. by rewrite Hperm.
Qed.

End remove_all_facts.

(** ** Removal: the claims *)





(** ** Which files the scripts write *)
Section write_facts.







End write_facts.

(** ** Writing the manifest: the claims *)




(** ** Facts about [sync_xcode_project.py] *)
Section sync_facts.

Import sync_xcode_project.

Variables (filesystem_files : list (str * str)) (rng : nat -> N).
Variables (w : world) (content : str).
Hypothesis Hread : read_file project_file w = Some content.

(** The text after the removals, and the files then added. *)
Let removed := files_to_remove content filesystem_files.
Let c1 := foldl (fun content filename => remove_lines filename content)
            content (elements removed).
Let to_add := files_to_add c1 filesystem_files.

Lemma sync_main_unfold :
  main filesystem_files rng w =
    let w2 :=
      prints ((AddingNewFile ∘ fst) <$> to_add)
        (prints (RemovingMissingFile <$> elements removed)
           (print (FoundInProject (size (get_existing_files content)))
              (print (FoundInFilesystem (length filesystem_files)) (print Syncing w)))) in
    Some
      (if bool_decide (0 < size removed ∨ 0 < length to_add)%nat
       then print (ProjectUpdated (length to_add) (size removed))
              (write_file project_file (add_files rng 0 to_add c1) w2)
       else print AlreadyInSync w2).
Proof. unfold main. by rewrite Hread. Qed.



End sync_facts.

(** ** A missing section sentinel: the claims *)




(** ** What [sync] removes and adds *)
Section sync_plan_facts.

Import sync_xcode_project.

Lemma dict_set_keys {V} (k : str) (v : V) (d : list (str * V)) :
  fst <$> dict_set k v d
  = if bool_decide (k ∈ fst <$> d) then fst <$> d else (fst <$> d) ++ [k].
Proof.
  induction d as [|[k' v'] d IH]; [reflexivity|].
  cbn [dict_set]. rewrite !fmap_cons. cbn [fst].
  destruct (decide (k' = k)) as [->|Hk].
  - rewrite !bool_decide_eq_true_2; [done| left | done].
  - rewrite (bool_decide_eq_false_2 (k' = k)) by done. rewrite fmap_cons, IH. cbn [fst].
    destruct (decide (k ∈ fst <$> d)) as [Hin|Hin].
    + rewrite !bool_decide_eq_true_2; [done | by right | done].
    + rewrite !bool_decide_eq_false_2; [done | | done].
      intros [?|?]%elem_of_cons; congruence.
Qed.

Lemma dict_of_keys_from {V} (pairs : list (str * V)) (d : list (str * V)) :
  NoDup (fst <$> d) ->
  NoDup (fst <$> foldl (fun d p => dict_set (fst p) (snd p) d) d pairs)
  /\ forall k, k ∈ fst <$> foldl (fun d p => dict_set (fst p) (snd p) d) d pairs
               <-> k ∈ fst <$> d \/ k ∈ fst <$> pairs.
Proof.
  revert d. induction pairs as [|[k v] pairs IH]; intros d Hd; simpl.
  - split; [done|]. intros k. rewrite elem_of_nil. tauto.
  - destruct (IH (dict_set k v d)) as [Hnd Hin].
    + rewrite dict_set_keys. case_bool_decide; [done|].
      apply NoDup_app. split; [done|]. split; [|apply NoDup_singleton].
      intros x Hx ->%list_elem_of_singleton. done.
    + split; [done|]. intros k'. rewrite Hin, dict_set_keys, elem_of_cons.
      case_bool_decide as Hk.
      * split; [tauto|]. intros [?|[->|?]]; auto.
      * rewrite elem_of_app, list_elem_of_singleton. tauto.
Qed.

Lemma dict_of_keys {V} (pairs : list (str * V)) :
  NoDup (fst <$> dict_of pairs)
  /\ forall k, k ∈ fst <$> dict_of pairs <-> k ∈ fst <$> pairs.
Proof.
  destruct (dict_of_keys_from pairs []) as [Hnd Hin]; [constructor|].
  split; [done|]. intros k. unfold dict_of. rewrite Hin, elem_of_nil. tauto.
Qed.

Lemma files_to_add_names (content : str) (filesystem_files : list (str * str)) :
  NoDup (fst <$> files_to_add content filesystem_files)
  /\ forall n,
       n ∈ fst <$> files_to_add content filesystem_files
       <-> n ∈ fst <$> filesystem_files
           /\ (n ∉ get_existing_files content)
           /\ n <> txt "GrassIconPreview.swift".
Proof.
  unfold files_to_add. destruct (dict_of_keys filesystem_files) as [Hnd Hin]. split.
  - eapply sublist_NoDup; [exact Hnd|]. apply fmap_sublist, sublist_filter.
  - intros n. rewrite <- Hin. rewrite !list_elem_of_fmap. split.
    + intros ([k v] & -> & Hf). apply list_elem_of_filter in Hf as [[H1 H2] Hf].
      simpl in *. split; [by exists (k, v)|]. done.
    + intros (([k v] & -> & Hf) & H1 & H2). exists (k, v). split; [done|].
      by apply list_elem_of_filter.
Qed.

Lemma files_to_remove_names (content : str) (filesystem_files : list (str * str)) (n : str) :
  n ∈ files_to_remove content filesystem_files
  <-> n ∈ get_existing_files content /\ n ∉ fst <$> filesystem_files.
Proof.
  unfold files_to_remove. rewrite elem_of_difference, elem_of_list_to_set. tauto.
Qed.

End sync_plan_facts.

(** ** [sync]: the claims *)




(** ** Running [sync] twice *)

(** C2 at a failing input. The scan holds [Foo+Bar.swift], a name the
    pattern [[\w\s]+\.swift] of [get_existing_files] does not match. The
    first run adds the file. The second run, on the same scan, does not
    find the name among the tracked ones, adds the file again under new
    identifiers and rewrites the manifest: the file after the second run
    differs from the file after the first. With [B.swift] in place of
    [Foo+Bar.swift] the second run finds the project in sync and the
    file is the same. *)
Theorem C2_second_sync_adds_again :
  (w1 ← sync_xcode_project.main
          [(txt "A.swift", txt "Views/A.swift");
           (txt "Foo+Bar.swift", txt "Views/Foo+Bar.swift")]
          spread (world_of manifest_a);
   w2 ← sync_xcode_project.main
          [(txt "A.swift", txt "Views/A.swift");
           (txt "Foo+Bar.swift", txt "Views/Foo+Bar.swift")]
          (fun n => spread (n + 2)) w1;
   c1 ← read_file project_file w1;
   c2 ← read_file project_file w2;
   Some (bool_decide (c1 = c2),
         bool_decide (txt "Foo+Bar.swift" ∈ tracked c1),
         length (filter (fun f => f.2 = txt "Foo+Bar.swift") (file_references c1)),
         length (filter (fun f => f.2 = txt "Foo+Bar.swift") (file_references c2)),
         last (stdout w2)))
  = Some (false, false, 1%nat, 2%nat, Some (ProjectUpdated 1 0))
  /\ (w1 ← sync_xcode_project.main
             [(txt "A.swift", txt "Views/A.swift"); (txt "B.swift", txt "Views/B.swift")]
             spread (world_of manifest_a);
      w2 ← sync_xcode_project.main
             [(txt "A.swift", txt "Views/A.swift"); (txt "B.swift", txt "Views/B.swift")]
             (fun n => spread (n + 2)) w1;
      Some (bool_decide (files w1 = files w2), last (stdout w2)))
     = Some (true, Some AlreadyInSync).
Proof. split; vm_compute; reflexivity. Qed.

(** ** [add_files_to_xcode.py] outside the three directories *)

(** For a path that names none of the three directories the text gets
    the FileReference entry, the BuildFile entry and the Sources entry,
    and no group is touched. *)
Lemma add_file_outside_groups (file_ref build_ref file_name file_path content : str) :
  Py.contains (txt "Managers/") file_path = false ->
  Py.contains (txt "Views/") file_path = false ->
  Py.contains (txt "Models/") file_path = false ->
  add_files_to_xcode.add_file file_ref build_ref file_name file_path content
  = append_to_lists (list_pattern sources_phase (txt "files") true)
      (source_entry build_ref file_name)
      (Py.replace end_build_file
         (build_ref_entry build_ref file_name file_ref ++ [NL] ++ end_build_file)
         (Py.replace end_file_reference
            (file_ref_entry file_ref file_name file_path ++ [NL] ++ end_file_reference)
            content)).
Proof.
  intros H1 H2 H3. unfold add_files_to_xcode.add_file. by rewrite H1, H2, H3.
Qed.

(** ** A file outside the three directories *)

(** C9 at a failing input. [Helper.swift] lies at the root, in none of
    [Managers/], [Views/] and [Models/]. [add_files_to_xcode.py] gives
    it a FileReference, a BuildFile entry and a place in Sources, but
    the children of every group stay as they were. [sync], on the same
    text with the same identifiers, puts it among the children of the
    root group. [rebuild] collects the root files in [root_refs] and
    never inserts them, so it leaves the file out of every group as
    well. *)
Theorem C9_add_leaves_root_file_out_of_every_group :
  let file_ref := txt "000000000000400080000100" in
  let build_ref := txt "000000000000400080000200" in
  let name := txt "Helper.swift" in
  let added := add_files_to_xcode.add_file file_ref build_ref name name manifest_a in
  let synced := sync_xcode_project.add_file file_ref build_ref name name manifest_a in
  let rebuilt :=
    rebuild_xcode_project.rebuilt_content spread [(name, name)] manifest_a in
  file_references added = [(id_a1, txt "A.swift"); (file_ref, name)]
  /\ build_file_entries added
     = [(id_b1, txt "A.swift", id_a1); (build_ref, name, file_ref)]
  /\ group_children added = group_children manifest_a
  /\ Py.contains (child_entry file_ref name) added = false
  /\ group_children synced
     = [[txt "B71234571234567812345678"; file_ref]; [id_a1]]
  /\ file_references rebuilt = [(id_a1, txt "A.swift"); (file_ref, name)]
  /\ Py.contains (child_entry file_ref name) rebuilt = false
  /\ (rebuild_xcode_project.group_refs
        (rebuild_xcode_project.generate_ids spread 0 [(name, name)] [])).2
     = [child_entry file_ref name].
Proof.
  cbv zeta.
  split; [vm_compute; reflexivity|]. split; [vm_compute; reflexivity|].
  split; [vm_compute; reflexivity|]. split; [vm_compute; reflexivity|].
  split; [vm_compute; reflexivity|]. split; [vm_compute; reflexivity|].
  split; vm_compute; reflexivity.
Qed.

(** ** Facts about the identifiers *)
Section uuid_facts.

Import Uuid.

Lemma hex_of_length (k : nat) (n : N) : length (hex_of k n) = k.
Proof.
  revert n. induction k as [|k IH]; intros n; [done|]. simpl.
  rewrite length_app, IH. simpl. lia.
Qed.

Lemma join_nil (parts : list str) : Py.join [] parts = concat parts.
Proof.
  induction parts as [|p parts IH]; [done|]. simpl.
  destruct parts as [|q parts]; [by rewrite app_nil_r|]. by rewrite IH.
Qed.

Lemma concat_split (sep : ascii) (x : str) :
  concat (Py.split sep x) = filter (fun c => c <> sep) x.
Proof.
  induction x as [|c x IH]; [done|]. simpl.
  destruct (ascii_eqb c sep) eqn:E.
  - apply ascii_eqb_true in E as ->. rewrite filter_cons_False by tauto. by rewrite <- IH.
  - apply ascii_eqb_false in E. rewrite filter_cons_True by done. rewrite <- IH.
    by destruct (Py.split sep x).
Qed.

(** The sixteen digits, one by one. *)
Lemma hex_digit_cases (d : N) (P : ascii -> Prop) :
  (d < 16)%N ->
  Forall P (txt "0123456789abcdef") -> P (hex_digit d).
Proof.
  intros Hd HP. unfold hex_digit. rewrite Forall_forall in HP. apply HP.
  apply list_elem_of_In, nth_In. change (length (txt "0123456789abcdef")) with 16%nat. lia.
Qed.

Lemma upper_hex_digit (d : N) :
  (d < 16)%N ->
  Re.hex_upper (Py.upper_char (hex_digit d)) = true
  /\ Py.upper_char (hex_digit d) <> "-"%char
  /\ hex_value (Py.upper_char (hex_digit d)) = d.
Proof.
  intros Hd. split; [|split].
  - apply (hex_digit_cases d (fun c => Re.hex_upper (Py.upper_char c) = true) Hd).
    repeat constructor.
  - apply (hex_digit_cases d (fun c => Py.upper_char c <> "-"%char) Hd).
    repeat (constructor; [discriminate|]). constructor.
  - assert (exists k, d = N.of_nat k /\ (k < 16)%nat) as (k & -> & Hk).
    { exists (N.to_nat d). lia. }
    do 16 (destruct k as [|k]; [reflexivity|]). lia.
Qed.

Lemma upper_hex_of (k : nat) (n : N) :
  Forall (fun c => Re.hex_upper c = true /\ c <> "-"%char) (Py.upper (hex_of k n)).
Proof.
  revert n. induction k as [|k IH]; intros n; [constructor|]. simpl.
  unfold Py.upper in *. rewrite fmap_app. apply Forall_app. split; [apply IH|].
  constructor; [|constructor].
  destruct (upper_hex_digit (n mod 16)) as (H1 & H2 & _); [|done].
  apply N.mod_lt. lia.
Qed.

Lemma hex_of_app (a b : nat) (n : N) :
  hex_of (a + b) n = hex_of a (n / 16 ^ N.of_nat b) ++ hex_of b n.
Proof.
  revert n. induction b as [|b IH]; intros n.
  - rewrite Nat.add_0_r. simpl. by rewrite N.div_1_r, app_nil_r.
  - rewrite Nat.add_succ_r. simpl hex_of. rewrite IH, <- app_assoc. do 2 f_equal.
    rewrite N.Div0.div_div. f_equal. rewrite Nat2N.inj_succ, N.pow_succ_r'. done.
Qed.

Lemma upper_hex_of_inj (k : nat) (n m : N) :
  Py.upper (hex_of k n) = Py.upper (hex_of k m)
  <-> (n mod 16 ^ N.of_nat k = m mod 16 ^ N.of_nat k)%N.
Proof.
  revert n m. induction k as [|k IH]; intros n m.
  - simpl. rewrite !N.mod_1_r. tauto.
  - simpl hex_of. unfold Py.upper in *. rewrite !fmap_app. simpl fmap.
    rewrite Nat2N.inj_succ, N.pow_succ_r'.
    rewrite !N.Div0.mod_mul_r.
    pose proof (N.mod_lt n 16 ltac:(lia)) as Hn.
    pose proof (N.mod_lt m 16 ltac:(lia)) as Hm.
    destruct (upper_hex_digit (n mod 16) Hn) as (_ & _ & Hvn).
    destruct (upper_hex_digit (m mod 16) Hm) as (_ & _ & Hvm).
    split.
    + intros [H1 H2]%app_inj_tail. apply IH in H1. rewrite H1.
      rewrite <- Hvn, <- Hvm, H2. done.
    + intros H.
      assert (n mod 16 = m mod 16 /\
              (n / 16) mod 16 ^ N.of_nat k = (m / 16) mod 16 ^ N.of_nat k)%N
        as [H1 H2] by lia.
      rewrite H1. f_equal. by apply IH.
Qed.

Lemma regroup (h : str) :
  take 8 h ++ take 4 (drop 8 h) ++ take 4 (drop 12 h) ++ take 4 (drop 16 h) ++ drop 20 h
  = h.
Proof.
  transitivity (take 8 h ++ drop 8 h); [f_equal | apply take_drop].
  transitivity (take 4 (drop 8 h) ++ drop 4 (drop 8 h)); [f_equal | apply take_drop].
  rewrite drop_drop.
  transitivity (take 4 (drop 12 h) ++ drop 4 (drop 12 h)); [f_equal | apply take_drop].
  rewrite drop_drop.
  transitivity (take 4 (drop 16 h) ++ drop 4 (drop 16 h)); [f_equal | apply take_drop].
  by rewrite drop_drop.
Qed.

Lemma filter_dashes (x : str) :
  Forall (fun c => Re.hex_upper c = true /\ c <> "-"%char) x ->
  filter (fun c => c <> "-"%char) x = x.
Proof.
  induction 1 as [|c x [_ Hc] _ IH]; [done|]. by rewrite filter_cons_True, IH.
Qed.

(** Both generators give the 24 upper-case digits that open the UUID. *)
Lemma generate_uuid_hex (r : N) :
  sync_xcode_project.generate_uuid r = Py.upper (hex_of 24 (uuid4 r / 2 ^ 32)).
Proof.
  unfold sync_xcode_project.generate_uuid. rewrite join_nil, concat_split.
  unfold to_str. set (h := hex (uuid4 r)).
  assert (forall i j, filter (fun c => c <> "-"%char) (Py.upper (take i (drop j h)))
                      = Py.upper (take i (drop j h))) as Hpart.
  { intros i j. apply filter_dashes. unfold Py.upper. rewrite fmap_take, fmap_drop.
    apply Forall_take, Forall_drop. apply upper_hex_of. }
  assert (filter (fun c => c <> "-"%char) (Py.upper (drop 20 h))
          = Py.upper (drop 20 h)) as Hlast.
  { apply filter_dashes. unfold Py.upper. rewrite fmap_drop.
    apply Forall_drop. apply upper_hex_of. }
  pose proof (Hpart 8%nat 0%nat) as Hfirst. rewrite drop_0 in Hfirst.
  unfold Py.upper in *. rewrite !fmap_app, !filter_app.
  rewrite Hfirst, !Hpart, Hlast.
  change (filter _ (Py.upper_char <$> txt "-")) with (@nil ascii).
  rewrite !app_nil_l, <- !fmap_app.
  rewrite (regroup h). unfold h, hex. rewrite <- fmap_take.
  change 32%nat with (24 + 8)%nat. rewrite hex_of_app.
  rewrite take_app_length' by (by rewrite hex_of_length). done.
Qed.

Lemma generate_id_uuid (r : N) :
  add_files_to_xcode.generate_id r = sync_xcode_project.generate_uuid r.
Proof.
  rewrite generate_uuid_hex. unfold add_files_to_xcode.generate_id, hex.
  change 32%nat with (24 + 8)%nat. rewrite hex_of_app.
  by rewrite take_app_length' by (by rewrite hex_of_length).
Qed.

End uuid_facts.

(** ** The identifier generator: the claims *)

(** C5, as the code has it. An identifier is the first 24 hexadecimal
    digits, in upper case, of a random version-4 UUID; the three
    generators of the scripts agree on it. Nothing compares it with the
    manifest or with the identifiers made before: in the loop of [sync]
    the two identifiers of a file come from the next two draws, whatever
    the text holds. Two identifiers are equal exactly when the stamped
    draws agree on their bits 32 to 127. *)
Theorem C5_identifier_is_the_head_of_a_random_uuid (r1 r2 : N) :
  (sync_xcode_project.generate_uuid r1 = sync_xcode_project.generate_uuid r2
   <-> ((Uuid.uuid4 r1 / 2 ^ 32) mod 2 ^ 96 = (Uuid.uuid4 r2 / 2 ^ 32) mod 2 ^ 96)%N)
  /\ length (sync_xcode_project.generate_uuid r1) = 24%nat
  /\ Forall (fun c => Re.hex_upper c = true) (sync_xcode_project.generate_uuid r1)
  /\ add_files_to_xcode.generate_id r1 = sync_xcode_project.generate_uuid r1
  /\ rebuild_xcode_project.generate_uuid r1 = sync_xcode_project.generate_uuid r1
  /\ (forall rng i name path rest content,
        sync_xcode_project.add_files rng i ((name, path) :: rest) content
        = sync_xcode_project.add_files rng (S i) rest
            (sync_xcode_project.add_file
               (sync_xcode_project.generate_uuid (rng (2 * i)%nat))
               (sync_xcode_project.generate_uuid (rng (2 * i + 1)%nat))
               name path content)).
Proof.
  split; [|split; [|split; [|split; [|split]]]].
  - rewrite !generate_uuid_hex. apply (upper_hex_of_inj 24).
  - rewrite generate_uuid_hex. unfold Py.upper. by rewrite length_fmap, hex_of_length.
  - rewrite generate_uuid_hex. eapply Forall_impl; [apply upper_hex_of|].
    by intros c [Hc _].
  - apply generate_id_uuid.
  - reflexivity.
  - reflexivity.
Qed.

Lemma C5_witness :
  sync_xcode_project.generate_uuid 0 = sync_xcode_project.generate_uuid 1.
Proof.
  destruct (C5_identifier_is_the_head_of_a_random_uuid 0 1) as [[_ Hsame] _].
  apply Hsame. vm_compute. reflexivity.
Defined.

(** C5 as stated fails. The draws 0 and 1 differ, and give the same
    identifier: [sync] adds [B.swift] with one identifier for its
    FileReference and for its BuildFile entry. A second run with the
    same draws adds [C.swift] under the identifier that [B.swift] has in
    the manifest. *)
Lemma C5_counterexample :
  counting 0 <> counting 1
  /\ sync_xcode_project.generate_uuid (counting 0)
     = sync_xcode_project.generate_uuid (counting 1)
  /\ (w1 ← sync_xcode_project.main
             [(txt "A.swift", txt "Views/A.swift"); (txt "B.swift", txt "Views/B.swift")]
             counting (world_of manifest_a);
      w2 ← sync_xcode_project.main
             [(txt "A.swift", txt "Views/A.swift"); (txt "B.swift", txt "Views/B.swift");
              (txt "C.swift", txt "Views/C.swift")]
             counting w1;
      c1 ← read_file project_file w1;
      c2 ← read_file project_file w2;
      Some (file_references c1, build_file_entries c1, file_references c2))
     = Some
         ([(id_a1, txt "A.swift"); (txt "000000000000400080000000", txt "B.swift")],
          [(id_b1, txt "A.swift", id_a1);
           (txt "000000000000400080000000", txt "B.swift",
            txt "000000000000400080000000")],
          [(id_a1, txt "A.swift"); (txt "000000000000400080000000", txt "B.swift");
           (txt "000000000000400080000000", txt "C.swift")]).
Proof.
  split; [discriminate|]. split; vm_compute; reflexivity.
Qed.

#[local] Set Warnings "-clear-no-such-hyp".

(** ** Facts about [clean_xcode_project.py] *)
Section clean_facts.

Import clean_xcode_project.

Context {V : Type} (value : Re.mobj -> V) (duplicate : str -> msg).

(** The loop over the entries: the text is cut by the line of each later
    duplicate, and the dict records each name with its first match. *)
Lemma dedup_fold (ms : list Re.mobj) (content : str) (seen : gmap str V)
  (out : list msg) :
  exists seen',
    foldl (dedup_step value duplicate) (content, seen, out) ms
    = (foldl cut content (duplicates (dom seen) ms), seen',
       out ++ ((duplicate ∘ Re.group 3) <$> duplicates (dom seen) ms))
    /\ forall n,
         seen' !! n
         = match seen !! n with
           | Some v => Some v
           | None => value <$> first_named n ms
           end.
Proof.
  revert content seen out. induction ms as [|m ms IH]; intros content seen out.
  - exists seen. simpl. rewrite app_nil_r. split; [done|].
    intros n. by destruct (seen !! n).
  - cbn [foldl dedup_step duplicates first_named].
    destruct (decide (Re.group 3 m ∈ dom seen)) as [Hin|Hin].
    + rewrite (bool_decide_eq_false_2 (Re.group 3 m ∉ dom seen)) by tauto.
      rewrite (bool_decide_eq_true_2 (Re.group 3 m ∈ dom seen)) by done.
      destruct (IH (Py.replace (Re.group 1 m ++ [NL]) [] content) seen
                  (out ++ [duplicate (Re.group 3 m)])) as (seen' & -> & Hseen).
      exists seen'. split.
      * cbn [foldl fmap list_fmap compose]. by rewrite <- app_assoc.
      * intros n. rewrite Hseen. destruct (seen !! n) eqn:E; [done|].
        case_bool_decide as Hn; [|done]. subst n.
        apply elem_of_dom in Hin as [v Hv]. congruence.
    + rewrite (bool_decide_eq_true_2 (Re.group 3 m ∉ dom seen)) by done.
      rewrite (bool_decide_eq_false_2 (Re.group 3 m ∈ dom seen)) by done.
      destruct (IH content (<[Re.group 3 m := value m]> seen) out)
        as (seen' & -> & Hseen).
      exists seen'. rewrite dom_insert_L. split; [done|].
      intros n. rewrite Hseen. apply not_elem_of_dom in Hin.
      destruct (decide (Re.group 3 m = n)) as [<-|Hn].
      * by rewrite lookup_insert_eq, Hin, bool_decide_eq_true_2.
      * rewrite lookup_insert_ne by done.
        by rewrite (bool_decide_eq_false_2 (Re.group 3 m = n)) by done.
Qed.


End clean_facts.

Section duplicates_facts.



Lemma duplicates_sublist (seen : gset str) (ms : list Re.mobj) :
  sublist (duplicates seen ms) ms.
Proof.
  revert seen. induction ms as [|m ms IH]; intros seen; [done|]. simpl.
  case_bool_decide; [by apply sublist_skip | by apply sublist_cons].
Qed.



Lemma duplicates_NoDup (seen : gset str) (ms : list Re.mobj) :
  NoDup (Re.group 3 <$> ms) ->
  (forall m, m ∈ ms -> Re.group 3 m ∉ seen) ->
  duplicates seen ms = [].
Proof.
  revert seen. induction ms as [|m ms IH]; intros seen Hnd Hseen; [done|].
  rewrite fmap_cons in Hnd. apply NoDup_cons in Hnd as [Hnew Hnd]. simpl.
  rewrite bool_decide_eq_false_2 by (apply Hseen; left). apply IH; [done|].
  intros m' Hm'. apply not_elem_of_union. split; [|apply Hseen; by right].
  intros Heq%elem_of_singleton. apply Hnew. rewrite <- Heq.
  by apply list_elem_of_fmap_2.
Qed.

End duplicates_facts.

Section clean_lines_facts.

Import clean_xcode_project.

Lemma clean_lines_cons (seen : gset str) (line : str) (rest : list str) :
  clean_lines seen (line :: rest)
  = match line_id line with
    | Some file_id =>
        if bool_decide (file_id ∉ seen)
        then line :: clean_lines ({[file_id]} ∪ seen) rest
        else clean_lines seen rest
    | None => line :: clean_lines seen rest
    end.
Proof. unfold line_id. cbn [clean_lines]. by destruct (Re.search id_pattern line). Qed.

Lemma line_ids_cons (line : str) (rest : list str) :
  line_ids (line :: rest)
  = match line_id line with
    | Some i => i :: line_ids rest
    | None => line_ids rest
    end.
Proof. done. Qed.








End clean_lines_facts.

(** ** Cutting a line out of a text of lines *)
Section cut_facts.

Variable L : str.
Hypothesis L_one_line : NL ∉ L.

(** [L] and its newline start [s ++ NL :: rest] only when [s] is [L]. *)
Lemma startswith_line (s rest : str) :
  NL ∉ s ->
  Py.startswith (L ++ [NL]) (s ++ NL :: rest) = bool_decide (s = L).
Proof.
  clear -L_one_line. revert s. induction L as [|a p IH]; intros s Hs.
  - destruct s as [|b s].
    + rewrite bool_decide_eq_true_2 by done. reflexivity.
    + rewrite bool_decide_eq_false_2 by done.
      apply not_elem_of_cons in Hs as [Hb _]. cbn [app Py.startswith].
      by rewrite (proj2 (ascii_eqb_false NL b)) by congruence.
  - apply not_elem_of_cons in L_one_line as [Ha Hp].
    destruct s as [|b s]; cbn [app Py.startswith].
    + rewrite bool_decide_eq_false_2 by done.
      by rewrite (proj2 (ascii_eqb_false a NL)) by congruence.
    + apply not_elem_of_cons in Hs as [Hb Hs]. rewrite IH by done.
      destruct (decide (a = b)) as [->|Hab].
      * rewrite ascii_eqb_refl. simpl.
        destruct (decide (s = p)) as [->|Hsp].
        -- by rewrite !bool_decide_eq_true_2.
        -- rewrite !bool_decide_eq_false_2; [done | congruence | done].
      * rewrite (proj2 (ascii_eqb_false a b)) by done. simpl.
        rewrite bool_decide_eq_false_2; [done | congruence].
Qed.

(** Inside a line that does not end with [L], nothing is cut. *)
Lemma replace_from_inside (fuel : nat) (s rest : str) :
  NL ∉ s ->
  (forall q r, s = q ++ r -> r <> L) ->
  length s < fuel ->
  Py.replace_from fuel (L ++ [NL]) [] (s ++ NL :: rest)
  = s ++ NL :: Py.replace_from (fuel - S (length s)) (L ++ [NL]) [] rest.
Proof.
  revert fuel. induction s as [|b s IH]; intros fuel Hs Hsuffix Hfuel.
  - destruct fuel as [|fuel]; [simpl in Hfuel; lia|]. cbn [Py.replace_from].
    rewrite (startswith_line [] rest) by done.
    rewrite bool_decide_eq_false_2 by (apply (Hsuffix [] []); done).
    simpl. by rewrite Nat.sub_0_r.
  - destruct fuel as [|fuel]; [simpl in Hfuel; lia|]. cbn [Py.replace_from].
    rewrite startswith_line by done.
    rewrite bool_decide_eq_false_2 by (apply (Hsuffix [] (b :: s)); done).
    cbn [app length]. f_equal. apply not_elem_of_cons in Hs as [_ Hs].
    rewrite IH; [done | done | | simpl in Hfuel; lia].
    intros q r ->. apply (Hsuffix (b :: q) r). done.
Qed.

(** On a text of lines none of which ends with [L] after something
    else, cutting [L] and its newline drops the lines equal to [L],
    all of them, and keeps the others. *)
Lemma replace_line (lines : list str) (fuel : nat) :
  Forall (fun l => (NL ∉ l) /\ forall q r, l = q ++ r -> q <> [] -> r <> L) lines ->
  length (text lines) < fuel ->
  Py.replace_from fuel (L ++ [NL]) [] (text lines)
  = text (filter (fun l => l <> L) lines).
Proof.
  intros Hlines. revert fuel.
  induction Hlines as [|l lines [Hnl Hsuffix] _ IH]; intros fuel Hfuel.
  - destruct fuel; [simpl in Hfuel; lia|]. cbn.
    destruct (Py.startswith (L ++ [NL]) []) eqn:E; [|done].
    apply startswith_nil in E. by destruct L.
  - unfold text in *. rewrite fmap_cons in *. cbn [concat] in *.
    rewrite <- app_assoc in *. cbn [app] in *.
    rewrite length_app in Hfuel. cbn [length] in Hfuel.
    destruct (decide (l = L)) as [->|Hl].
    + rewrite filter_cons_False by tauto.
      destruct fuel as [|fuel]; [lia|]. cbn [Py.replace_from].
      rewrite startswith_line, bool_decide_eq_true_2 by done.
      cbn [app]. rewrite <- (IH fuel) by lia. f_equal.
      replace (L ++ NL :: concat ((λ l, l ++ [NL]) <$> lines))
        with ((L ++ [NL]) ++ concat ((λ l, l ++ [NL]) <$> lines))
        by (by rewrite <- app_assoc).
      by rewrite drop_app_length.
    + rewrite filter_cons_True by done. rewrite fmap_cons. cbn [concat].
      rewrite <- app_assoc. cbn [app].
      rewrite replace_from_inside; [| done | | lia].
      * do 2 f_equal. apply IH. lia.
      * intros q r -> ->. destruct q as [|c q]; [done|].
        by apply (Hsuffix (c :: q) L).
Qed.

(** The same for [cut], the step of the first two loops of [clean]. *)
Lemma cut_text (m : Re.mobj) (lines : list str) :
  Re.group 1 m = L ->
  Forall (fun l => (NL ∉ l) /\ forall q r, l = q ++ r -> q <> [] -> r <> L) lines ->
  cut (text lines) m = text (filter (fun l => l <> L) lines).
Proof.
  intros Hm Hlines. unfold cut, Py.replace. rewrite Hm.
  destruct (L ++ [NL]) as [|a old] eqn:E.
  { by apply app_nil in E as [_ ?]. }
  rewrite <- E. apply replace_line; [done | lia].
Qed.

End cut_facts.

(** ** [clean]: the claims *)






(** Two entries with the same line: [clean] cuts the line wherever it
    occurs, so the first entry goes with the second. *)
Example clean_cuts_identical_lines :
  file_references manifest_twice = [(id_a1, txt "D.swift"); (id_a1, txt "D.swift")]
  /\ file_references (clean_xcode_project.clean_content manifest_twice).1 = []
  /\ build_file_entries (clean_xcode_project.clean_content manifest_twice).1 = []
  /\ group_children (clean_xcode_project.clean_content manifest_twice).1
     = [[txt "B71234571234567812345678"]; [id_a1]].
Proof.
  split; [vm_compute; reflexivity|]. split; [vm_compute; reflexivity|].
  split; vm_compute; reflexivity.
Qed.

(** * Further properties of the scripts *)

(** ** [remove_from_xcode.py] *)

(** X1. Removing a name a second time finds no reference: the second
    call prints that none was found and writes nothing. *)
Theorem X1_remove_twice_finds_nothing (name : str) (w : world) (content : str)
  (Hread : read_file project_file w = Some content) :
  exists w1,
    remove_from_xcode.remove_file_from_project project_file name w = Some w1
    /\ remove_from_xcode.remove_file_from_project project_file name w1
       = Some (print (NoReferencesFound name) w1).
Proof.
  destruct (remove_file_spec project_file name w content Hread)
    as (w1 & c1 & Hrun & Hread1 & _ & Hgone & _).
  exists w1. split; [done|]. by apply (remove_file_not_found _ _ _ c1).
Qed.

Lemma X1_witness :
  exists w1,
    remove_from_xcode.remove_file_from_project project_file (txt "B.swift")
      (world_of manifest_ab) = Some w1
    /\ remove_from_xcode.remove_file_from_project project_file (txt "B.swift") w1
       = Some (print (NoReferencesFound (txt "B.swift")) w1).
Proof.
  apply (X1_remove_twice_finds_nothing (txt "B.swift") (world_of manifest_ab) manifest_ab).
  reflexivity.
Defined.

(** X2. On a manifest where no line that holds the name opens an entry
    it does not close, [remove_from_xcode.py] writes the very text that
    the removal step of [sync] computes for that name, and reports the
    number of lines that hold the name. *)
Theorem X2_remove_agrees_with_sync_removal (name : str) (w : world) (content : str)
  (Hread : read_file project_file w = Some content)
  (Hplain : plain_name name)
  (Hfound : Exists (fun l => Py.contains name l = true) (Py.readlines content))
  (Hone :
     Forall (fun l => Py.contains name l = true ->
                      Py.contains (txt "{") l && negb (Py.contains (txt "}") l) = false)
       (Py.readlines content)) :
  exists w1,
    remove_from_xcode.remove_file_from_project project_file name w = Some w1
    /\ read_file project_file w1 = Some (sync_xcode_project.remove_lines name content)
    /\ stdout w1
       = stdout w
         ++ [RemovedReferences
               (length (filter (fun l => Py.contains name l = true) (Py.readlines content)))
               name].
Proof.
  destruct Hplain as [Hne Hnl].
  rewrite (remove_file_found project_file name w content Hread Hfound).
  eexists. split; [done|].
  destruct (filter_lines_kept name false (Py.readlines content)) as (_ & _ & Hcount).
  rewrite Hcount, (filter_lines_one_line_entries name _ Hone).
  rewrite (remove_lines_filter name Hne Hnl content).
  split; [|done]. unfold read_file. simpl. by rewrite lookup_insert_eq.
Qed.

Lemma X2_witness :
  exists w1,
    remove_from_xcode.remove_file_from_project project_file (txt "B.swift")
      (world_of manifest_ab) = Some w1
    /\ read_file project_file w1
       = Some (sync_xcode_project.remove_lines (txt "B.swift") manifest_ab).
Proof.
  destruct (X2_remove_agrees_with_sync_removal (txt "B.swift") (world_of manifest_ab)
              manifest_ab) as (w1 & Hrun & Hfile & _).
  - reflexivity.
  - split; [discriminate|]. apply (bool_decide_unpack _). vm_compute. exact I.
  - apply (bool_decide_unpack _). vm_compute. exact I.
  - apply (bool_decide_unpack _). vm_compute. exact I.
  - by exists w1.
Defined.

(** ** [sync_xcode_project.py] *)

(** X3. The loop of [remove_missing_files] runs over a set; for names of
    one line the text it leaves is the same in whatever order the names
    are taken. *)
Theorem X3_removal_order_is_irrelevant (names names' : list str) (content : str)
  (Hplain : Forall plain_name names) (Hperm : names ≡ₚ names') :
  foldl (fun content filename => sync_xcode_project.remove_lines filename content)
    content names
  = foldl (fun content filename => sync_xcode_project.remove_lines filename content)
      content names'.
Proof.
  rewrite !remove_all_filter by (by rewrite <- ?Hperm).
  f_equal. apply list_filter_iff. intros l. by rewrite Hperm.
Qed.

Lemma X3_witness :
  foldl (fun content filename => sync_xcode_project.remove_lines filename content)
    manifest_ab [txt "A.swift"; txt "B.swift"]
  = foldl (fun content filename => sync_xcode_project.remove_lines filename content)
      manifest_ab [txt "B.swift"; txt "A.swift"].
Proof.
  apply X3_removal_order_is_irrelevant.
  - repeat constructor; try discriminate; apply (bool_decide_unpack _); vm_compute; exact I.
  - apply Permutation_swap.
Defined.

(** X4. When every tracked name is in the scan and every name of the
    scan is tracked or is [GrassIconPreview.swift], [sync] finds the
    project in sync: it writes no file and its last line says so. *)
Theorem X4_sync_in_sync_writes_nothing
  (filesystem_files : list (str * str)) (rng : nat -> N) (w : world) (content : str)
  (Hread : read_file project_file w = Some content)
  (Hstale : tracked content ⊆ list_to_set (fst <$> filesystem_files))
  (Hnew : list_to_set (fst <$> filesystem_files)
          ⊆ tracked content ∪ {[txt "GrassIconPreview.swift"]}) :
  exists w',
    sync_xcode_project.main filesystem_files rng w = Some w'
    /\ files w' = files w
    /\ last (stdout w') = Some AlreadyInSync.
Proof.
  pose proof (sync_main_unfold filesystem_files rng w content Hread) as Hmain.
  cbv zeta in Hmain.
  assert (sync_xcode_project.files_to_remove content filesystem_files = ∅) as Hrem.
  { apply leibniz_equiv, elem_of_equiv_empty. intros n [Hn Hout]%files_to_remove_names.
    apply Hout. apply Hstale in Hn. by apply elem_of_list_to_set in Hn. }
  rewrite Hrem, elements_empty in Hmain. cbn [foldl] in Hmain.
  assert (sync_xcode_project.files_to_add content filesystem_files = []) as Hadd.
  { destruct (sync_xcode_project.files_to_add content filesystem_files) as [|[n p] l] eqn:E;
      [done|].
    destruct (files_to_add_names content filesystem_files) as [_ Hin].
    destruct (proj1 (Hin n)) as (Hscan & Hnot & Hgrass).
    { rewrite E. left. }
    assert (n ∈ tracked content ∪ {[txt "GrassIconPreview.swift"]}) as Hn
      by (by apply Hnew, elem_of_list_to_set).
    apply elem_of_union in Hn as [Hn|Hn%elem_of_singleton]; done. }
  rewrite Hadd in Hmain. rewrite Hmain.
  rewrite bool_decide_eq_false_2 by (rewrite size_empty; simpl; lia).
  eexists. split; [done|]. split; [done|]. simpl. by rewrite last_snoc.
Qed.

Lemma X4_witness :
  exists w',
    sync_xcode_project.main
      [(txt "A.swift", txt "Views/A.swift");
       (txt "GrassIconPreview.swift", txt "Views/GrassIconPreview.swift")]
      counting (world_of manifest_a) = Some w'
    /\ files w' = files (world_of manifest_a)
    /\ last (stdout w') = Some AlreadyInSync.
Proof.
  apply (X4_sync_in_sync_writes_nothing _ counting (world_of manifest_a) manifest_a).
  - reflexivity.
  - apply (bool_decide_unpack _). vm_compute. exact I.
  - apply (bool_decide_unpack _). vm_compute. exact I.
Defined.

(** ** The dicts built from the scan *)
Section dict_facts.

Context {V : Type}.

Lemma dict_set_elem (k : str) (v : V) (d : list (str * V)) (k' : str) (v' : V) :
  NoDup (fst <$> d) ->
  (k', v') ∈ dict_set k v d <-> (k' = k /\ v' = v) \/ (k' <> k /\ (k', v') ∈ d).
Proof.
  induction d as [|[k0 v0] d IH]; intros Hnd.
  - simpl. rewrite list_elem_of_singleton, elem_of_nil. split.
    + intros [= -> ->]. by left.
    + intros [[-> ->]|[_ []]]. done.
  - rewrite fmap_cons in Hnd. apply NoDup_cons in Hnd as [Hk0 Hnd]. cbn [dict_set].
    destruct (decide (k0 = k)) as [->|Hne].
    + rewrite bool_decide_eq_true_2 by done. rewrite !elem_of_cons. split.
      * intros [[= -> ->]|Hin]; [by left|]. right. split; [|by right].
        intros ->. apply Hk0. by apply (list_elem_of_fmap_2 fst) in Hin.
      * intros [[-> ->]|[Hk [[= ? ?]|Hin]]]; [by left | congruence | by right].
    + rewrite bool_decide_eq_false_2 by done. rewrite !elem_of_cons, IH by done. split.
      * intros [[= -> ->]|[?|[? ?]]]; [right; split; [done | by left] | by left |].
        right. split; [done | by right].
      * intros [?|[Hk [[= -> ->]|Hin]]]; [right; by left | by left |].
        right. right. done.
Qed.

Lemma dict_of_elem_from (pairs d : list (str * V)) (k : str) (v : V) :
  NoDup (fst <$> d) ->
  (k, v) ∈ foldl (fun d p => dict_set (fst p) (snd p) d) d pairs
  <-> (exists l1 l2, pairs = l1 ++ (k, v) :: l2 /\ k ∉ fst <$> l2)
      \/ ((k, v) ∈ d /\ k ∉ fst <$> pairs).
Proof.
  revert d. induction pairs as [|[k0 v0] pairs IH]; intros d Hnd.
  - simpl. split.
    + intros Hin. right. split; [done | apply not_elem_of_nil].
    + intros [(l1 & l2 & Heq & _)|[Hin _]]; [by destruct l1 | done].
  - cbn [foldl fst snd]. rewrite IH.
    2:{ rewrite dict_set_keys. case_bool_decide; [done|].
        apply NoDup_app. split; [done|]. split; [|apply NoDup_singleton].
        intros x Hx ->%list_elem_of_singleton. done. }
    rewrite dict_set_elem by done. rewrite fmap_cons, not_elem_of_cons. cbn [fst]. split.
    + intros [(l1 & l2 & Heq & Hl2)|[[[Hk Hv]|[Hk Hin]] Hrest]].
      * left. exists ((k0, v0) :: l1), l2. by rewrite Heq.
      * subst k v. left. by exists [], pairs.
      * right. done.
    + intros [(l1 & l2 & Heq & Hl2)|[Hin [Hk Hrest]]].
      * destruct l1 as [|p l1]; simpl in Heq.
        -- injection Heq as Hk Hv Hp. subst. right. split; [by left | done].
        -- injection Heq as Hp Heq. left. by exists l1, l2.
      * right. split; [by right | done].
Qed.

Lemma dict_of_elem (pairs : list (str * V)) (k : str) (v : V) :
  (k, v) ∈ dict_of pairs
  <-> exists l1 l2, pairs = l1 ++ (k, v) :: l2 /\ k ∉ fst <$> l2.
Proof.
  unfold dict_of. rewrite dict_of_elem_from by constructor. split.
  - intros [?|[[]%elem_of_nil _]]. done.
  - by left.
Qed.

End dict_facts.



(** ** [rebuild_xcode_project.py] *)
Section rebuild_facts.

Import rebuild_xcode_project.

Lemma generate_ids_fold (rng : nat -> N) (i : nat) (files : list (str * str))
  (file_data : list (str * data)) :
  generate_ids rng i files file_data
  = foldl (fun d p => dict_set (fst p) (snd p) d) file_data (scanned_entries rng i files).
Proof.
  revert i file_data. induction files as [|[name path] files IH]; intros i file_data.
  - done.
  - simpl. by rewrite IH.
Qed.

Lemma scanned_entries_split (rng : nat -> N) (i : nat) (files : list (str * str))
  (l1 l2 : list (str * data)) (name : str) (d : data) :
  scanned_entries rng i files = l1 ++ (name, d) :: l2 ->
  files !! length l1 = Some (name, path d)
  /\ file_ref d = generate_uuid (rng (2 * (i + length l1))%nat)
  /\ build_ref d = generate_uuid (rng (2 * (i + length l1) + 1)%nat)
  /\ fst <$> l2 = fst <$> drop (S (length l1)) files.
Proof.
  revert i l1. induction files as [|[n p] files IH]; intros i l1 Heq.
  - by destruct l1.
  - destruct l1 as [|e l1].
    + cbn [scanned_entries app] in Heq. injection Heq as Hn Hd Hl2. subst n d l2.
      cbn [length path file_ref build_ref].
      split; [reflexivity|]. split; [do 2 f_equal; lia|]. split; [do 2 f_equal; lia|].
      cbn [drop]. clear.
      generalize (S i). induction files as [|[n p'] files IH]; intros j; [done|].
      cbn [scanned_entries]. rewrite !fmap_cons. cbn [fst]. by rewrite IH.
    + cbn [scanned_entries app] in Heq. injection Heq as _ Heq.
      apply IH in Heq as (H1 & H2 & H3 & H4). cbn [length].
      replace (i + S (length l1))%nat with (S i + length l1)%nat by lia. done.
Qed.

End rebuild_facts.

(** X6. [rebuild] keeps one entry of [file_data] for each file name of
    the scan: the entry of a name holds the path of its last occurrence
    in the scan and the two identifiers drawn at that occurrence. *)
Theorem X6_rebuild_registers_each_name_once
  (rng : nat -> N) (files : list (str * str)) (name : str)
  (d : rebuild_xcode_project.data)
  (Hin : (name, d) ∈ rebuild_xcode_project.generate_ids rng 0 files []) :
  NoDup (fst <$> rebuild_xcode_project.generate_ids rng 0 files [])
  /\ exists j,
       files !! j = Some (name, rebuild_xcode_project.path d)
       /\ (name ∉ fst <$> drop (S j) files)
       /\ rebuild_xcode_project.file_ref d
          = rebuild_xcode_project.generate_uuid (rng (2 * j)%nat)
       /\ rebuild_xcode_project.build_ref d
          = rebuild_xcode_project.generate_uuid (rng (2 * j + 1)%nat).
Proof.
  rewrite generate_ids_fold in *. split.
  - apply (dict_of_keys (scanned_entries rng 0 files)).
  - apply (dict_of_elem (scanned_entries rng 0 files)) in Hin as (l1 & l2 & Heq & Hl2).
    apply scanned_entries_split in Heq as (H1 & H2 & H3 & H4).
    exists (length l1). rewrite <- H4. done.
Qed.

Lemma X6_witness :
  exists j,
    [(txt "B.swift", txt "Models/B.swift"); (txt "B.swift", txt "Views/B.swift")] !! j
    = Some (txt "B.swift", txt "Views/B.swift")
    /\ rebuild_xcode_project.generate_uuid (spread 2)
       = rebuild_xcode_project.generate_uuid (spread (2 * j)).
Proof.
  destruct (X6_rebuild_registers_each_name_once spread
              [(txt "B.swift", txt "Models/B.swift"); (txt "B.swift", txt "Views/B.swift")]
              (txt "B.swift")
              (rebuild_xcode_project.Data (txt "Views/B.swift")
                 (rebuild_xcode_project.generate_uuid (spread 2))
                 (rebuild_xcode_project.generate_uuid (spread 3))))
    as [_ (j & Hj & _ & Hid & _)].
  - vm_compute. left.
  - exists j. done.
Defined.

(** ** [clean_xcode_project.py] on a manifest without duplicates *)
Section clean_noop_facts.

Import clean_xcode_project.

Lemma split_nonempty (sep : ascii) (x : str) : Py.split sep x <> [].
Proof.
  destruct x as [|c x]; [done|]. simpl.
  destruct (ascii_eqb c sep); [done|]. by destruct (Py.split sep x).
Qed.

Lemma join_cons (sep p : str) (parts : list str) :
  parts <> [] -> Py.join sep (p :: parts) = p ++ sep ++ Py.join sep parts.
Proof. by destruct parts. Qed.

(** ['\n'.join(x.split('\n'))] is [x]. *)
Lemma join_split (x : str) : Py.join [NL] (Py.split NL x) = x.
Proof.
  induction x as [|c x IH]; [done|]. cbn [Py.split].
  pose proof (split_nonempty NL x) as Hne.
  destruct (ascii_eqb c NL) eqn:E.
  - apply ascii_eqb_true in E as ->.
    rewrite join_cons by done. by rewrite IH.
  - destruct (Py.split NL x) as [|h t]; [done|].
    rewrite <- IH. destruct t as [|h' t]; [done|].
    by rewrite !(join_cons _ _ (h' :: t)).
Qed.

Lemma dropped_lines_cons (seen : gset str) (line : str) (rest : list str) :
  dropped_lines seen (line :: rest)
  = match line_id line with
    | Some file_id =>
        if bool_decide (file_id ∉ seen)
        then dropped_lines ({[file_id]} ∪ seen) rest
        else line :: dropped_lines seen rest
    | None => dropped_lines seen rest
    end.
Proof. unfold line_id. cbn [dropped_lines]. by destruct (Re.search id_pattern line). Qed.

(** A list that names no identifier twice is kept as it is. *)
Lemma clean_lines_NoDup_id (seen : gset str) (lines : list str) :
  NoDup (line_ids lines) ->
  (forall i, i ∈ line_ids lines -> i ∉ seen) ->
  clean_lines seen lines = lines /\ dropped_lines seen lines = [].
Proof.
  revert seen. induction lines as [|l lines IH]; intros seen Hnd Hseen; [done|].
  rewrite clean_lines_cons, dropped_lines_cons. rewrite line_ids_cons in Hnd, Hseen.
  destruct (line_id l) as [i|] eqn:Ei.
  - apply NoDup_cons in Hnd as [Hi Hnd].
    rewrite bool_decide_eq_true_2 by (apply Hseen; left).
    destruct (IH ({[i]} ∪ seen) Hnd) as [H1 H2].
    { intros j Hj. apply not_elem_of_union. split.
      - intros ->%elem_of_singleton. done.
      - apply Hseen. by right. }
    by rewrite H1, H2.
  - destruct (IH seen Hnd Hseen) as [H1 H2]. by rewrite H1, H2.
Qed.

Lemma clean_lists_id (duplicate : str -> msg) (ms : list Re.mobj) (content : str)
  (out : list msg) :
  Forall (fun m => NoDup (line_ids (Py.split NL (Re.group 1 m)))) ms ->
  foldl (clean_list_step duplicate) (content, out) ms = (content, out).
Proof.
  induction 1 as [|m ms Hm _ IH]; [done|]. cbn [foldl].
  unfold clean_list_step at 2.
  destruct (clean_lines_NoDup_id ∅ (Py.split NL (Re.group 1 m)) Hm) as [H1 H2].
  { intros i _. apply not_elem_of_empty. }
  rewrite H1, H2, join_split, bool_decide_eq_false_2 by tauto.
  cbn [fmap list_fmap]. by rewrite app_nil_r.
Qed.

Lemma dedup_entries_id {V} (pattern : Re.regex) (value : Re.mobj -> V)
  (duplicate : str -> msg) (content : str) :
  NoDup (Re.group 3 <$> Re.finditer pattern content) ->
  exists seen, dedup_entries pattern value duplicate content = (content, seen, []).
Proof.
  intros Hnd. unfold dedup_entries.
  destruct (dedup_fold value duplicate (Re.finditer pattern content) content ∅ [])
    as (seen & -> & _).
  exists seen. rewrite duplicates_NoDup; [done | done |].
  intros m _. rewrite dom_empty_L. apply not_elem_of_empty.
Qed.

End clean_noop_facts.

(** X7. On a manifest where no two FileReference entries and no two
    BuildFile entries share a display name, and where no children list
    and no Sources files list names an identifier twice, [clean] finds
    nothing to remove: it writes the manifest back as it was and prints
    only that the project file was cleaned. *)
Theorem X7_clean_leaves_a_manifest_without_duplicates
  (w : world) (content : str)
  (Hread : read_file project_file w = Some content)
  (Hfile : NoDup (snd <$> file_references content))
  (Hbuild : NoDup ((fun b => snd (fst b)) <$> build_file_entries content))
  (Hchildren : Forall NoDup (group_children content))
  (Hsources : Forall NoDup (phase_files content)) :
  clean_xcode_project.clean_content content = (content, [])
  /\ exists w',
       clean_xcode_project.main w = Some w'
       /\ files w' = files w
       /\ stdout w' = stdout w ++ [ProjectFileCleaned].
Proof.
  assert (clean_xcode_project.clean_content content = (content, [])) as Hclean.
  { unfold clean_xcode_project.clean_content.
    destruct (dedup_entries_id clean_xcode_project.file_ref_pattern
                clean_xcode_project.file_ref_value RemovingDuplicateFileReference content)
      as (seen1 & ->).
    { unfold file_references in Hfile. rewrite <- list_fmap_compose in Hfile. exact Hfile. }
    destruct (dedup_entries_id clean_xcode_project.build_ref_pattern
                clean_xcode_project.build_ref_value RemovingDuplicateBuildReference content)
      as (seen2 & ->).
    { unfold build_file_entries in Hbuild. rewrite <- list_fmap_compose in Hbuild. exact Hbuild. }
    unfold clean_xcode_project.clean_lists.
    rewrite clean_lists_id.
    2:{ exact (proj1 (Forall_fmap (fun m => line_ids (Py.split NL (Re.group 1 m))) NoDup _) Hchildren). }
    rewrite clean_lists_id.
    2:{ exact (proj1 (Forall_fmap (fun m => line_ids (Py.split NL (Re.group 1 m))) NoDup _) Hsources). }
    done. }
  split; [done|].
  unfold clean_xcode_project.main, clean_xcode_project.clean_project_file.
  rewrite Hread. cbn [mbind option_bind]. rewrite Hclean.
  eexists. split; [done|]. unfold read_file in Hread. simpl.
  split; [by apply insert_id | by rewrite app_nil_r].
Qed.

Lemma X7_witness :
  clean_xcode_project.clean_content manifest_ab = (manifest_ab, []).
Proof.
  apply (X7_clean_leaves_a_manifest_without_duplicates (world_of manifest_ab) manifest_ab).
  - reflexivity.
  - apply (bool_decide_unpack _). vm_compute. exact I.
  - apply (bool_decide_unpack _). vm_compute. exact I.
  - apply (bool_decide_unpack _). vm_compute. exact I.
  - apply (bool_decide_unpack _). vm_compute. exact I.
Defined.

(** ** Texts put into a text *)
Section inserted_facts.

Context (P : str -> Prop).

Lemma inserted_refl (x : str) : inserted P x x.
Proof. induction x; by constructor. Qed.

Lemma inserted_app_keep (p x y : str) : inserted P x y -> inserted P (p ++ x) (p ++ y).
Proof. intros H. induction p; [done|]. by constructor. Qed.

Variable T : str.
Hypothesis T_whole :
  forall q s post, T = q ++ s -> q <> [] -> s <> [] -> ~ P (s ++ post).

Lemma inserted_inside (x y : str) :
  inserted P x y ->
  forall q s post, T = q ++ s -> q <> [] -> x = s ++ post -> exists post', y = s ++ post'.
Proof.
  induction 1 as [|a x y _ IH|t x y HP _ _]; intros q s post HT Hq Hx.
  - symmetry in Hx. apply app_eq_nil in Hx as [-> _]. by exists [].
  - destruct s as [|b s]; [by eexists|]. simpl in Hx. injection Hx as -> ->.
    destruct (IH (q ++ [b]) s post) as [post' ->]; [| |done|by exists post'].
    + by rewrite <- app_assoc.
    + by destruct q.
  - destruct s as [|b s]; [by eexists|]. subst x.
    by destruct (T_whole q (b :: s) post).
Qed.

(** An occurrence of [T] no insertion can fall into is still there. *)
Lemma contains_inserted (x y : str) :
  inserted P x y -> Py.contains T x = true -> Py.contains T y = true.
Proof.
  rewrite !contains_true. intros H (pre & post & Hx). revert pre Hx.
  induction H as [|a x y H IH|t x y HP H IH]; intros pre Hx.
  - by exists pre, post.
  - destruct pre as [|b pre].
    + assert (T = [] \/ exists b T', T = b :: T') as [HT|(b & T' & HT)]
        by (destruct T; eauto).
      { rewrite HT. by exists [], (a :: y). }
      rewrite HT in Hx |- *. simpl in Hx. injection Hx as -> ->.
      destruct (inserted_inside _ _ H [b] T' post) as [post' ->]; [done|done|done|].
      by exists [], post'.
    + simpl in Hx. injection Hx as -> ->.
      destruct (IH pre eq_refl) as (pre' & post' & ->). by exists (b :: pre'), post'.
  - destruct (IH pre Hx) as (pre' & post' & ->). exists (t ++ pre'), post'.
    by rewrite <- app_assoc.
Qed.

End inserted_facts.

(** [x.replace(old, t + old)] puts [t] before the occurrences of [old]. *)
Lemma replace_from_inserted (fuel : nat) (old t x : str) :
  inserted (fun r => Py.startswith old r = true) x
    (Py.replace_from fuel old (t ++ old) x).
Proof.
  revert x. induction fuel as [|fuel IH]; intros x; [apply inserted_refl|].
  cbn [Py.replace_from]. destruct (Py.startswith old x) eqn:E.
  - pose proof E as [x' ->]%startswith_true. rewrite drop_app_length, <- app_assoc.
    apply inserted_here; [done|]. apply inserted_app_keep, IH.
  - destruct x as [|c x]; constructor. apply IH.
Qed.

Lemma replace_inserted (old t x : str) :
  old <> [] ->
  inserted (fun r => Py.startswith old r = true) x (Py.replace old (t ++ old) x).
Proof. destruct old; [done|]. intros _. apply replace_from_inserted. Qed.

(** Where [old] occurs, [x.replace(old, new)] holds [new]. *)
Lemma replace_from_present (fuel : nat) (old new x : str) :
  length x < fuel ->
  Py.contains old x = true -> Py.contains new (Py.replace_from fuel old new x) = true.
Proof.
  revert x. induction fuel as [|fuel IH]; intros x Hfuel Hx; [lia|].
  cbn [Py.replace_from]. destruct (Py.startswith old x) eqn:E.
  - apply (contains_self_app new []).
  - destruct x as [|c x]; simpl in Hx; rewrite E in Hx; [done|].
    apply (contains_app_r _ [c]), IH; [simpl in Hfuel; lia | done].
Qed.

Lemma replace_present (old new x : str) :
  old <> [] ->
  Py.contains old x = true -> Py.contains new (Py.replace old new x) = true.
Proof. destruct old; [done|]. intros _. apply replace_from_present. lia. Qed.

(** ** The matching engine on the list patterns *)
Section engine_facts.

Lemma rep_unfold {R} (k : str -> option R) (cls : ascii -> bool) (lo : nat)
  (hi : option nat) (greedy : bool) (n : nat) (x : str) :
  Re.rep k cls lo hi greedy n x
  = let more :=
      match x with
      | a :: x' => if cls a && Re.below hi n then Re.rep k cls lo hi greedy (S n) x' else None
      | [] => None
      end in
    let stop := if (lo <=? n)%nat then k x else None in
    if greedy then match more with Some res => Some res | None => stop end
    else match stop with Some res => Some res | None => more end.
Proof. by destruct x. Qed.

(** A repetition takes characters of its class, at least [lo] with those
    taken before, and hands the rest over. *)
Lemma rep_result {R} (k : str -> option R) (cls : ascii -> bool) (lo : nat)
  (hi : option nat) (greedy : bool) (n : nat) (x : str) (res : R) :
  Re.rep k cls lo hi greedy n x = Some res ->
  exists taken x',
    x = taken ++ x' /\ Forall (fun a => cls a = true) taken
    /\ (lo <= n + length taken)%nat /\ k x' = Some res.
Proof.
  revert n. induction x as [|a x IH]; intros n; rewrite rep_unfold; cbv zeta.
  - intros H. exists [], [].
    destruct (lo <=? n)%nat eqn:Hlo; [apply Nat.leb_le in Hlo|];
      destruct greedy, (k []); simplify_eq; repeat split; auto; simpl; lia.
  - intros H.
    assert (((lo <= n)%nat /\ k (a :: x) = Some res)
            \/ (cls a = true /\ Re.rep k cls lo hi greedy (S n) x = Some res))
      as [[Hlo Hk]|[Ha Hm]].
    { destruct (lo <=? n)%nat eqn:Hlo; [apply Nat.leb_le in Hlo|];
        destruct (cls a) eqn:Ha; cbn [andb] in H;
        destruct (Re.below hi n), greedy; repeat case_match; simplify_eq; auto. }
    + exists [], (a :: x). repeat split; auto. simpl. lia.
    + destruct (IH _ Hm) as (taken & x' & -> & Htaken & Hlo & Hk).
      exists (a :: taken), x'. repeat split; [by constructor | simpl; lia | done].
Qed.

(** A greedy repetition without upper bound, followed by something that
    always matches, stops where its class does. *)
Lemma rep_greedy_end {R} (k : str -> option R) (cls : ascii -> bool) (lo n : nat)
  (x : str) (res : R) :
  (forall x', is_Some (k x')) ->
  Re.rep k cls lo None true n x = Some res ->
  exists taken rest,
    x = taken ++ rest /\ k rest = Some res
    /\ (rest = [] \/ exists a rest', rest = a :: rest' /\ cls a = false).
Proof.
  intros Hk. revert n. induction x as [|a x IH]; intros n; rewrite rep_unfold; cbv zeta.
  - intros H. exists [], []. destruct (lo <=? n)%nat; [|done]. auto.
  - cbn [Re.below]. rewrite andb_true_r. destruct (cls a) eqn:Ha.
    + destruct (Re.rep k cls lo None true (S n) x) as [res'|] eqn:Hm.
      * intros [= ->]. destruct (IH _ Hm) as (taken & rest & -> & ? & ?).
        by exists (a :: taken), rest.
      * destruct (lo <=? n)%nat eqn:Hlo; [|done]. exfalso.
        rewrite rep_unfold in Hm. cbv zeta in Hm.
        apply Nat.leb_le in Hlo. rewrite (proj2 (Nat.leb_le lo (S n))) in Hm by lia.
        destruct (Hk x) as [r Hr]. rewrite Hr in Hm. by repeat case_match.
    + intros H. exists [], (a :: x). destruct (lo <=? n)%nat; [|done].
      split; [done|]. split; [done|]. right. by exists a, x.
Qed.

Variables (header key : str) (nonempty : bool).

(** A match of a list pattern is its group 1, is not empty, and ends
    where the list does. *)
Lemma matches_list_pattern (x rest : str) (c : Re.caps) :
  Re.matches (list_pattern header key nonempty) x Re.no_caps = Some (rest, c) ->
  exists w, x = w ++ rest /\ w <> [] /\ Re.closed c = [(1%nat, w)] /\ list_end rest.
Proof.
  unfold list_pattern. cbn [Re.matches].
  destruct (Py.startswith (header ++ txt " = {") x) eqn:E1; [|done].
  apply startswith_true in E1 as [y1 ->]. rewrite drop_app_length.
  intros (t1 & x1 & -> & _ & _ & H)%rep_result.
  destruct (Py.startswith (key ++ txt " = (") x1) eqn:E2; [|done].
  apply startswith_true in E2 as [y2 ->]. rewrite drop_app_length in H.
  apply rep_greedy_end in H as (t2 & rest' & -> & H & Hend); [|by eexists].
  injection H as -> <-.
  exists ((header ++ txt " = {") ++ t1 ++ (key ++ txt " = (") ++ t2).
  split; [by rewrite <- !app_assoc|]. split; [by destruct header|]. split.
  - unfold Re.close_group, Re.open_group. cbn [Re.opened Re.closed Re.lookup_group].
    rewrite bool_decide_eq_true_2 by done. cbn [Re.closed]. do 2 f_equal.
    rewrite <- !app_assoc, !length_app.
    rewrite !app_assoc. rewrite take_app_length'; [done|]. rewrite !length_app. lia.
  - destruct Hend as [->|(a & r' & -> & Ha)]; [by left|]. right. exists r'. f_equal.
    unfold Re.other_than in Ha. apply negb_false_iff in Ha. by apply ascii_eqb_true in Ha.
Qed.

Lemma search_list_pattern (x : str) (m : Re.mobj) :
  Re.search (list_pattern header key nonempty) x = Some m ->
  x = Re.before m ++ Re.whole m ++ Re.after m
  /\ Re.whole m <> [] /\ Re.group 1 m = Re.whole m /\ list_end (Re.after m).
Proof.
  revert m. induction x as [|a x IH]; intros m; rewrite search_unfold.
  - destruct (Re.matches _ [] Re.no_caps) as [[rest c]|] eqn:E; [|done].
    apply matches_list_pattern in E as (w & Hx & Hw & Hc & Hend).
    symmetry in Hx. apply app_eq_nil in Hx as [-> _]. done.
  - destruct (Re.matches _ (a :: x) Re.no_caps) as [[rest c]|] eqn:E.
    + apply matches_list_pattern in E as (w & Hx & Hw & Hc & Hend).
      rewrite Hx, length_app, Nat.add_sub, take_app_length.
      intros [= <-]. cbn [Re.before Re.whole Re.after app].
      unfold Re.group. cbn [Re.groups]. rewrite Hc. cbn.
      by rewrite bool_decide_eq_true_2.
    + destruct (Re.search _ x) as [m'|]; [|done]. intros [= <-].
      destruct (IH m' eq_refl) as (Hx & Hw & Hg & Hend).
      unfold skipping. cbn [Re.before Re.whole Re.after app]. unfold Re.group in *.
      cbn [Re.groups]. by rewrite <- Hx.
Qed.

(** Appending an entry to the lists a pattern matches puts it, on a new
    line, where each of these lists ends, and changes nothing else. *)
Lemma append_to_lists_inserted (entry x : str) :
  inserted list_end x (append_to_lists (list_pattern header key nonempty) entry x).
Proof.
  unfold append_to_lists, Re.sub. generalize (S (length x)). intros fuel. revert x.
  induction fuel as [|fuel IH]; intros x; [apply inserted_refl|].
  rewrite sub_from_unfold.
  destruct (Re.search _ x) as [m|] eqn:E; [|apply inserted_refl].
  apply search_list_pattern in E as (Hx & Hw & -> & Hend).
  destruct (Re.whole m) as [|b w]; [done|].
  rewrite Hx at 1. apply inserted_app_keep. rewrite <- app_assoc.
  apply inserted_app_keep. by apply inserted_here.
Qed.

End engine_facts.

(** ** [add_files_to_xcode.py], run again *)
Section add_twice_facts.

Lemma basename_no_slash (p : str) : "/"%char ∉ Py.basename p.
Proof.
  induction p as [|c p IH]; [apply not_elem_of_nil|]. cbn [Py.basename].
  case_bool_decide as Hp; [done|].
  destruct (ascii_eqb c "/") eqn:E; [done|].
  apply ascii_eqb_false in E. by apply not_elem_of_cons.
Qed.

Lemma app_split_at (a : ascii) (l1 l2 q s : str) :
  l1 ++ l2 = q ++ a :: s -> a ∉ l1 -> exists q', q = l1 ++ q' /\ l2 = q' ++ a :: s.
Proof.
  revert q. induction l1 as [|b l1 IH]; intros q H Ha; [by exists q|].
  apply not_elem_of_cons in Ha as [Hab Ha].
  destruct q as [|c q]; simpl in H; injection H as -> H; [done|].
  destruct (IH q H Ha) as (q' & -> & ->). by exists q'.
Qed.

Variable name : str.
Hypothesis name_no_slash : "/"%char ∉ name.

(** A slash inside the comment is the one that closes it. *)
Lemma name_comment_slash (q s : str) :
  name_comment name = q ++ "/"%char :: s -> q <> [] -> s = txt " ".
Proof.
  unfold name_comment. intros H Hq.
  destruct q as [|c0 q]; [done|]. injection H as _ H.
  destruct q as [|c1 q]; [discriminate|]. injection H as _ H.
  destruct q as [|c2 q]; [discriminate|]. injection H as _ H.
  apply app_split_at in H as (q' & -> & H); [|done].
  destruct q' as [|d0 q']; [discriminate|]. injection H as _ H.
  destruct q' as [|d1 q']; [discriminate|]. injection H as _ H.
  destruct q' as [|d2 q']; [by injection H|]. injection H as _ H.
  destruct q' as [|d3 q']; [discriminate|]. injection H as _ H.
  by destruct q'.
Qed.

Lemma name_comment_paren : ")"%char ∉ name -> ")"%char ∉ name_comment name.
Proof.
  intros Hn. unfold name_comment. rewrite !elem_of_app. intros [H|[H|H]]; [|done|].
  - revert H. apply (bool_decide_unpack _). vm_compute. exact I.
  - revert H. apply (bool_decide_unpack _). vm_compute. exact I.
Qed.

(** The comment of a file with its entry: putting text before the
    section end of the BuildFile entries does not break it. *)
Lemma name_comment_replace (t x : str) :
  Py.contains (name_comment name) x = true ->
  Py.contains (name_comment name)
    (Py.replace end_build_file (t ++ end_build_file) x) = true.
Proof.
  apply contains_inserted with (P := fun r => Py.startswith end_build_file r = true);
    [|by apply replace_inserted].
  intros q s post HT Hq Hs [y Hy]%startswith_true.
  destruct s as [|c s]; [done|]. injection Hy as -> Hy.
  apply name_comment_slash in HT as ->; [|done]. discriminate.
Qed.

(** Nor does an entry appended to a list. *)
Lemma name_comment_append (header key : str) (nonempty : bool) (entry x : str) :
  ")"%char ∉ name ->
  Py.contains (name_comment name) x = true ->
  Py.contains (name_comment name)
    (append_to_lists (list_pattern header key nonempty) entry x) = true.
Proof.
  intros Hn. apply contains_inserted with (P := list_end);
    [|apply append_to_lists_inserted].
  intros q s post HT Hq Hs Hend. destruct s as [|c s]; [done|].
  destruct Hend as [H|[r H]]; [done|]. injection H as -> _.
  apply (name_comment_paren Hn). rewrite HT. apply elem_of_app. right. left.
Qed.

Lemma name_comment_entry (file_ref path : str) :
  Py.contains (name_comment name) (file_ref_entry file_ref name path) = true.
Proof.
  apply contains_true. unfold file_ref_entry, name_comment.
  exists (tabs 2 ++ file_ref ++ txt " "). eexists.
  rewrite <- !app_assoc. reflexivity.
Qed.

(** The text [add_file] gives, on a text with the section end of the
    FileReference entries, holds the comment of the file. *)
Lemma add_file_comment (file_ref build_ref path content : str) :
  ")"%char ∉ name ->
  Py.contains end_file_reference content = true ->
  Py.contains (txt "/* " ++ name ++ txt " */")
    (add_files_to_xcode.add_file file_ref build_ref name path content) = true.
Proof.
  intros Hn Hend.
  apply (contains_trans _ (name_comment name)).
  { apply contains_true. exists [], (txt " "). unfold name_comment.
    by rewrite <- !app_assoc. }
  unfold add_files_to_xcode.add_file. cbv zeta.
  apply name_comment_append; [done|].
  assert (Py.contains (name_comment name)
            (Py.replace end_build_file
               (build_ref_entry build_ref name file_ref ++ [NL] ++ end_build_file)
               (Py.replace end_file_reference
                  (file_ref_entry file_ref name path ++ [NL] ++ end_file_reference)
                  content)) = true) as H.
  { rewrite (app_assoc _ [NL]). apply name_comment_replace.
    eapply contains_trans; [|by apply replace_present].
    apply contains_app_l, name_comment_entry. }
  repeat case_match; try done; by apply name_comment_append.
Qed.

End add_twice_facts.

(** X8. Adding a file a second time changes nothing. When the manifest
    holds the line that ends the FileReference section, and the name of
    the file has no closing parenthesis, the first call of
    [add_file_to_project] leaves the comment of the name in the text it
    writes (or finds it there and writes nothing), so that the second
    call only prints that the file is already in the project: it takes
    no identifier and writes no file. The name is taken without
    backslash, which [re.sub] would read as an escape in the
    replacement. *)
Theorem X8_add_twice_skips_the_second_time
  (rng : nat -> N) (project_path : string) (file_path : str) (w : world) (i : nat)
  (content : str)
  (Hread : read_file project_path w = Some content)
  (Hend : Py.contains end_file_reference content = true)
  (Hparen : ")"%char ∉ Py.basename file_path)
  (Hescape : BACKSLASH ∉ Py.basename file_path) :
  exists w1 i1,
    add_files_to_xcode.add_file_to_project rng project_path file_path (w, i)
    = Some (w1, i1)
    /\ add_files_to_xcode.add_file_to_project rng project_path file_path (w1, i1)
       = Some (print (AlreadyInProject (Py.basename file_path)) w1, i1).
Proof.
  unfold add_files_to_xcode.add_file_to_project. rewrite Hread. cbn [mbind option_bind].
  destruct (Py.contains (_ ++ Py.basename file_path ++ _) content) eqn:E.
  - eexists _, _. split; [done|].
    change (read_file project_path (print _ w)) with (read_file project_path w).
    rewrite Hread. cbn [mbind option_bind]. by rewrite E.
  - eexists _, _. split; [done|]. unfold read_file. cbn [files print write_file].
    rewrite lookup_insert_eq. cbn [mbind option_bind].
    rewrite add_file_comment; [done | apply basename_no_slash | done | done].
Qed.

Lemma X8_witness :
  exists w1 i1,
    add_files_to_xcode.add_file_to_project spread project_file (txt "Views/B.swift")
      (world_of manifest_a, 0%nat)
    = Some (w1, i1)
    /\ add_files_to_xcode.add_file_to_project spread project_file (txt "Views/B.swift")
         (w1, i1)
       = Some (print (AlreadyInProject (Py.basename (txt "Views/B.swift"))) w1, i1).
Proof.
  apply (X8_add_twice_skips_the_second_time spread project_file (txt "Views/B.swift")
           (world_of manifest_a) 0 manifest_a).
  - reflexivity.
  - vm_compute. reflexivity.
  - apply (bool_decide_unpack _). vm_compute. exact I.
  - apply (bool_decide_unpack _). vm_compute. exact I.
Defined.

(** ** The version digit of an identifier *)
Section version_facts.

Import Uuid.

(** [uuid4] stamps the version: the bits 76 to 79 are 0100. *)
Lemma uuid4_version (r : N) : ((uuid4 r / 2 ^ 76) mod 16 = 4)%N.
Proof.
  change 16%N with (2 ^ 4)%N. change 4%N with (4 mod 2 ^ 4)%N at 2.
  apply N.bits_inj. intros k.
  destruct (N.lt_ge_cases k 4) as [Hk|Hk].
  - rewrite !N.mod_pow2_bits_low by done. rewrite N.div_pow2_bits.
    unfold uuid4. cbv zeta. rewrite N.lor_spec, N.ldiff_spec.
    generalize (N.lor (N.ldiff r (N.shiftl 49152 48)) (N.shiftl 32768 48)). intros j.
    assert (k = 0 \/ k = 1 \/ k = 2 \/ k = 3)%N as [-> | [-> | [-> | ->]]] by lia;
      generalize (N.testbit j); intros b.
    + change (N.testbit (N.shiftl 61440 64) (0 + 76)) with true. by rewrite andb_false_r.
    + change (N.testbit (N.shiftl 61440 64) (1 + 76)) with true. by rewrite andb_false_r.
    + change (N.testbit (N.shiftl 61440 64) (2 + 76)) with true. by rewrite andb_false_r.
    + change (N.testbit (N.shiftl 61440 64) (3 + 76)) with true. by rewrite andb_false_r.
  - by rewrite !N.mod_pow2_bits_high.
Qed.

Lemma hex_of_one (n : N) : hex_of 1 n = [hex_digit (n mod 16)].
Proof. done. Qed.

(** The thirteenth digit of an identifier is the version, 4. *)
Lemma generate_uuid_version (r : N) :
  sync_xcode_project.generate_uuid r !! 12%nat = Some "4"%char.
Proof.
  rewrite generate_uuid_hex. unfold Py.upper. rewrite list_lookup_fmap.
  change 24%nat with (12 + 12)%nat. rewrite hex_of_app.
  rewrite lookup_app_r by (rewrite hex_of_length; lia).
  rewrite hex_of_length, Nat.sub_diag.
  change 12%nat with (1 + 11)%nat. rewrite hex_of_app, hex_of_one. cbn [app lookup list_lookup].
  rewrite N.Div0.div_div.
  change (2 ^ 32 * 16 ^ N.of_nat 11)%N with (2 ^ 76)%N.
  by rewrite uuid4_version.
Qed.

End version_facts.

(** ** The guard before [re.sub] *)
Section guard_facts.


End guard_facts.

(** X9. An identifier made by [generate_uuid] (and so by the other two
    generators) has the version digit 4 in its thirteenth place. The
    identifiers the scripts look for, those of the groups Managers,
    Views, Models and TouchGrass and of the Sources phase, have a 5
    there: no draw gives one of them. *)
Theorem X9_identifier_is_never_a_group_identifier (r : N) :
  sync_xcode_project.generate_uuid r !! 12%nat = Some "4"%char
  /\ add_files_to_xcode.generate_id r !! 12%nat = Some "4"%char
  /\ rebuild_xcode_project.generate_uuid r !! 12%nat = Some "4"%char
  /\ Forall (fun header => take 24 header <> sync_xcode_project.generate_uuid r)
       [managers_group; views_group; models_group; root_group; sources_phase].
Proof.
  pose proof (generate_uuid_version r) as H.
  split; [exact H|]. split; [by rewrite generate_id_uuid|]. split; [exact H|].
  repeat (constructor; [intros Heq; rewrite <- Heq in H; discriminate H|]).
  constructor.
Qed.



(** ** What [re.finditer] finds *)
Section finditer_facts.

(** A match ends inside the text it started in. *)
Lemma matches_suffix (r : Re.regex) (x rest : str) (c c' : Re.caps) :
  Re.matches r x c = Some (rest, c') -> exists w, x = w ++ rest.
Proof.
  revert x c. induction r as [|[l|cls lo hi greedy|g|g] r IH]; intros x c; cbn [Re.matches].
  - intros [= -> _]. by exists [].
  - destruct (Py.startswith l x) eqn:E; [|done].
    apply startswith_true in E as [y ->]. rewrite drop_app_length.
    intros [w ->]%IH. exists (l ++ w). by rewrite <- app_assoc.
  - intros (taken & x' & -> & _ & _ & [w ->]%IH)%rep_result.
    exists (taken ++ w). by rewrite <- app_assoc.
  - apply IH.
  - apply IH.
Qed.

(** What [re.search] returns is a match of the pattern, at the place
    where [before] ends. *)
Lemma search_spec (r : Re.regex) (x : str) (m : Re.mobj) :
  Re.search r x = Some m ->
  exists c,
    x = Re.before m ++ Re.whole m ++ Re.after m
    /\ Re.matches r (Re.whole m ++ Re.after m) Re.no_caps = Some (Re.after m, c)
    /\ Re.groups m = Re.closed c.
Proof.
  revert m. induction x as [|a x IH]; intros m; rewrite search_unfold.
  - destruct (Re.matches r [] Re.no_caps) as [[rest c]|] eqn:E; [|done].
    pose proof E as [w Hw]%matches_suffix.
    symmetry in Hw. apply app_eq_nil in Hw as [-> ->].
    intros [= <-]. by exists c.
  - destruct (Re.matches r (a :: x) Re.no_caps) as [[rest c]|] eqn:E.
    + pose proof E as [w Hw]%matches_suffix. rewrite Hw in E |- *.
      rewrite length_app, Nat.add_sub, take_app_length.
      intros [= <-]. by exists c.
    + destruct (Re.search r x) as [m'|]; [|done]. intros [= <-].
      destruct (IH m' eq_refl) as (c & Hx & Hm & Hg). exists c.
      unfold skipping. cbn [Re.before Re.whole Re.after Re.groups app].
      by rewrite <- Hx.
Qed.

(** So is every match of [re.finditer]. *)
Lemma finditer_from_spec (fuel : nat) (r : Re.regex) (x : str) (m : Re.mobj) :
  m ∈ Re.finditer_from fuel r x ->
  exists pre c,
    x = pre ++ Re.whole m ++ Re.after m
    /\ Re.matches r (Re.whole m ++ Re.after m) Re.no_caps = Some (Re.after m, c)
    /\ Re.groups m = Re.closed c.
Proof.
  revert x. induction fuel as [|fuel IH]; intros x; [by intros ?%elem_of_nil|].
  cbn [Re.finditer_from]. destruct (Re.search r x) as [m0|] eqn:E; [|by intros ?%elem_of_nil].
  apply search_spec in E as (c0 & Hx & Hm0 & Hg0).
  assert (forall rest skipped,
            Re.after m0 = skipped ++ rest ->
            m ∈ m0 :: Re.finditer_from fuel r rest ->
            exists pre c,
              x = pre ++ Re.whole m ++ Re.after m
              /\ Re.matches r (Re.whole m ++ Re.after m) Re.no_caps = Some (Re.after m, c)
              /\ Re.groups m = Re.closed c) as Hstep.
  { intros rest skipped Hafter [->|Hin]%elem_of_cons.
    - by exists (Re.before m0), c0.
    - apply IH in Hin as (pre & c & Hrest & Hm & Hg).
      exists (Re.before m0 ++ Re.whole m0 ++ skipped ++ pre), c.
      split; [|done]. rewrite Hx, Hafter, Hrest. by rewrite <- !app_assoc. }
  destruct (Re.whole m0) as [|b w] eqn:Ew, (Re.after m0) as [|a rest] eqn:Ea.
  - intros ->%list_elem_of_singleton. exists (Re.before m0), c0.
    by rewrite Ew, Ea.
  - intros H. rewrite <- Ew in Hx, Hm0. by apply (Hstep rest [a]).
  - intros H. rewrite <- Ew in Hx, Hm0. by apply (Hstep [] []).
  - intros H. rewrite <- Ew in Hx, Hm0. by apply (Hstep (a :: rest) []).
Qed.

(** A match of the pattern of [get_existing_files]: a comment that
    holds word characters and blanks, then [.swift]. *)
Lemma matches_existing_pattern (x rest : str) (c : Re.caps) :
  Re.matches sync_xcode_project.existing_pattern x Re.no_caps = Some (rest, c) ->
  exists stem,
    stem <> []
    /\ Forall (fun a => Re.word a || Re.space a = true) stem
    /\ Re.closed c = [(1%nat, stem ++ txt ".swift")]
    /\ x = txt "/* " ++ (stem ++ txt ".swift") ++ txt " */" ++ rest.
Proof.
  unfold sync_xcode_project.existing_pattern. cbn [Re.matches].
  destruct (Py.startswith (txt "/* ") x) eqn:E1; [|done].
  apply startswith_true in E1 as [y ->]. rewrite drop_app_length.
  intros (stem & y1 & -> & Hstem & Hlen & H)%rep_result.
  destruct (Py.startswith (txt ".swift") y1) eqn:E2; [|done].
  apply startswith_true in E2 as [y2 ->]. rewrite drop_app_length in H.
  destruct (Py.startswith (txt " */") y2) eqn:E3; [|done].
  apply startswith_true in E3 as [y3 ->]. rewrite drop_app_length in H.
  injection H as -> <-. exists stem.
  split; [destruct stem; [simpl in Hlen; lia | done]|]. split; [done|]. split.
  - unfold Re.close_group, Re.open_group. cbn [Re.opened Re.closed Re.lookup_group].
    rewrite bool_decide_eq_true_2 by done. cbn [Re.closed]. do 2 f_equal.
    transitivity (take (length (stem ++ txt ".swift"))
                    ((stem ++ txt ".swift") ++ txt " */" ++ rest));
      [|apply take_app_length].
    f_equal; [rewrite !length_app; simpl; lia | by rewrite <- app_assoc].
  - by rewrite <- !app_assoc.
Qed.

(** What [get_existing_files] reports was found by its pattern. *)
Lemma tracked_spec (content name : str) :
  name ∈ tracked content ->
  Py.contains (txt "/* " ++ name ++ txt " */") content = true
  /\ exists stem,
       name = stem ++ txt ".swift"
       /\ stem <> []
       /\ Forall (fun a => Re.word a || Re.space a = true) stem.
Proof.
  unfold tracked, sync_xcode_project.get_existing_files, Re.findall. intros Htracked.
  apply elem_of_list_to_set, list_elem_of_fmap in Htracked as (m & -> & Hm).
  apply finditer_from_spec in Hm as (pre & c & Hx & Hm & Hg).
  apply matches_existing_pattern in Hm as (stem & Hne & Hstem & Hc & Hw).
  unfold Re.group. rewrite Hg, Hc. cbn [Re.lookup_group].
  rewrite bool_decide_eq_true_2 by done. cbn [default]. unfold id.
  split; [|by exists stem].
  rewrite Hx, Hw. apply contains_true. exists pre, (Re.after m).
  by rewrite <- !app_assoc.
Qed.

End finditer_facts.

(** X11. A name [get_existing_files] reports stands in the text inside a
    comment, [/* name */], and is made of word characters and blanks,
    at least one, followed by [.swift]. A file whose name holds another
    character, a plus sign or a hyphen, is never among the tracked
    names, whatever the manifest holds. *)
Theorem X11_tracked_names_are_plain_swift_comments (content name : str)
  (Htracked : name ∈ tracked content) :
  Py.contains (txt "/* " ++ name ++ txt " */") content = true
  /\ exists stem,
       name = stem ++ txt ".swift"
       /\ stem <> []
       /\ Forall (fun a => Re.word a || Re.space a = true) stem.
Proof. by apply tracked_spec. Qed.

Lemma X11_witness :
  Py.contains (txt "/* " ++ txt "A.swift" ++ txt " */") manifest_ab = true
  /\ exists stem,
       txt "A.swift" = stem ++ txt ".swift"
       /\ stem <> []
       /\ Forall (fun a => Re.word a || Re.space a = true) stem.
Proof.
  apply (X11_tracked_names_are_plain_swift_comments manifest_ab (txt "A.swift")).
  apply (bool_decide_unpack _). vm_compute. exact I.
Defined.

(** ** A name of one line in a text of lines *)
Section name_in_lines_facts.

Variable n : str.
Hypothesis n_plain : plain_name n.

Lemma startswith_before_nl (s rest : str) :
  Py.startswith n (s ++ NL :: rest) = Py.startswith n s.
Proof.
  destruct n_plain as [_ Hnl]. clear n_plain. revert s.
  induction n as [|c p IH]; intros s; [done|].
  apply not_elem_of_cons in Hnl as [Hc Hp].
  destruct s as [|d s]; cbn [app Py.startswith].
  - by rewrite (proj2 (ascii_eqb_false c NL)) by congruence.
  - by rewrite IH.
Qed.

Lemma contains_nil_plain : Py.contains n [] = false.
Proof. destruct n_plain as [Hne _]. by destruct n. Qed.

(** The name occurs in a text that opens with a line when it occurs in
    that line or after it. *)
Lemma contains_line_app (b rest : str) :
  Py.contains n ((b ++ [NL]) ++ rest) = Py.contains n b || Py.contains n rest.
Proof.
  rewrite <- app_assoc. cbn [app]. induction b as [|a b IH].
  - cbn [app Py.contains]. change (NL :: rest) with ([] ++ NL :: rest) at 1.
    by rewrite startswith_before_nl.
  - cbn [app Py.contains]. rewrite IH.
    change (a :: b ++ NL :: rest) with ((a :: b) ++ NL :: rest).
    by rewrite startswith_before_nl, orb_assoc.
Qed.

(** It occurs in no text made of lines that do not hold it. *)
Lemma contains_concat_lines (ls : list str) :
  lines_ok ls ->
  Forall (fun l => Py.contains n l = false) ls ->
  Py.contains n (concat ls) = false.
Proof.
  induction 1 as [|l Hl|l ls (b & -> & Hb) _ IH]; intros Hls.
  - apply contains_nil_plain.
  - apply Forall_cons in Hls as [Hl' _]. cbn [concat]. by rewrite app_nil_r.
  - apply Forall_cons in Hls as [Hl' Hls]. cbn [concat].
    rewrite contains_line_app, IH by done.
    destruct n_plain as [Hne Hnl].
    rewrite (contains_ended n Hne Hnl) in Hl'. by rewrite Hl'.
Qed.

End name_in_lines_facts.

(** After the removals of [sync] none of the names taken is left. *)
Lemma remove_all_absent (names : list str) (x n : str) :
  Forall plain_name names -> n ∈ names ->
  Py.contains n
    (foldl (fun content filename => sync_xcode_project.remove_lines filename content)
       x names) = false.
Proof.
  intros Hplain Hn. rewrite remove_all_filter by done.
  apply contains_concat_lines.
  - rewrite Forall_forall in Hplain. by apply Hplain.
  - eapply lines_ok_sublist; [apply sublist_filter | apply readlines_ok].
  - apply Forall_forall. intros l [Hl _]%list_elem_of_filter.
    rewrite Forall_forall in Hl. by apply Hl.
Qed.

(** X12. What [remove_missing_files] takes out is gone. When the names
    to remove hold no newline, the text returned holds none of them
    anywhere, so that [get_existing_files] does not report them on the
    text any more. *)
Theorem X12_removed_names_are_no_longer_tracked
  (content : str) (filesystem_files : list (str * str)) (n : str)
  (Hlines :
     Forall (fun n => NL ∉ n)
       (elements (sync_xcode_project.files_to_remove content filesystem_files)))
  (Hstale : n ∈ sync_xcode_project.files_to_remove content filesystem_files) :
  Py.contains n
    (sync_xcode_project.remove_missing_files content filesystem_files).1.1 = false
  /\ n ∉ tracked (sync_xcode_project.remove_missing_files content filesystem_files).1.1.
Proof.
  assert (Py.contains n
            (sync_xcode_project.remove_missing_files content filesystem_files).1.1
          = false) as Hgone.
  { unfold sync_xcode_project.remove_missing_files. cbn [fst].
    apply remove_all_absent; [|by apply elem_of_elements].
    apply Forall_forall. intros m Hm. split.
    - apply elem_of_elements, files_to_remove_names in Hm as [Hm _].
      apply tracked_spec in Hm as (_ & stem & -> & _). by destruct stem.
    - rewrite Forall_forall in Hlines. by apply Hlines. }
  split; [done|]. intros [Hin _]%tracked_spec.
  rewrite (contains_trans n _ _ (contains_self_app n _ _) Hin) in Hgone. done.
Qed.

Lemma X12_witness :
  Py.contains (txt "B.swift")
    (sync_xcode_project.remove_missing_files manifest_ab
       [(txt "A.swift", txt "Views/A.swift")]).1.1 = false
  /\ txt "B.swift"
       ∉ tracked (sync_xcode_project.remove_missing_files manifest_ab
                    [(txt "A.swift", txt "Views/A.swift")]).1.1.
Proof.
  apply (X12_removed_names_are_no_longer_tracked manifest_ab
           [(txt "A.swift", txt "Views/A.swift")] (txt "B.swift")).
  - apply (bool_decide_unpack _). vm_compute. exact I.
  - apply (bool_decide_unpack _). vm_compute. exact I.
Defined.

(** ** The loop of [add_files_to_xcode.py] *)
Section add_main_facts.

Variables (exists_ : str -> bool) (rng : nat -> N).

(** What [add_file_to_project] writes and draws depends on the files
    alone, not on what was printed. *)
Lemma add_file_to_project_same_files (file_path : str) (st1 st2 : world * nat) :
  same_files st1 st2 ->
  option_Forall2 same_files
    (add_files_to_xcode.add_file_to_project rng project_file file_path st1)
    (add_files_to_xcode.add_file_to_project rng project_file file_path st2).
Proof.
  destruct st1 as [w1 i1], st2 as [w2 i2]. intros [Hf Hi]. cbn [fst snd] in Hf, Hi. subst i2.
  unfold add_files_to_xcode.add_file_to_project, read_file. rewrite Hf.
  destruct (files w2 !! project_file) as [content|]; cbn [mbind option_bind];
    [|constructor].
  destruct (Py.contains _ content); constructor; split;
    cbn [fst snd files print write_file]; by rewrite ?Hf.
Qed.

Lemma add_loop_same_files (args : list str) (acc1 acc2 : option (world * nat)) :
  option_Forall2 same_files acc1 acc2 ->
  option_Forall2 same_files
    (foldl
       (fun st file_path =>
          st ≫= fun st =>
          if exists_ file_path
          then add_files_to_xcode.add_file_to_project rng project_file file_path st
          else Some (print (FileNotFound file_path) (fst st), snd st))
       acc1 args)
    (foldl
       (fun st file_path =>
          st ≫= fun st =>
          if (fun _ => true) file_path
          then add_files_to_xcode.add_file_to_project rng project_file file_path st
          else Some (print (FileNotFound file_path) (fst st), snd st))
       acc2 (filter (fun a => exists_ a = true) args)).
Proof.
  revert acc1 acc2. induction args as [|a args IH]; intros acc1 acc2 Hacc; [done|].
  cbn [foldl]. destruct (exists_ a) eqn:Ea.
  - rewrite filter_cons_True by done. cbn [foldl]. apply IH.
    destruct Hacc as [st1 st2 Hst|]; cbn [mbind option_bind]; [|constructor].
    by apply add_file_to_project_same_files.
  - rewrite filter_cons_False by (by rewrite Ea). apply IH.
    destruct Hacc as [st1 st2 [Hf Hi]|]; cbn [mbind option_bind]; constructor.
    by split.
Qed.

End add_main_facts.

(** X13. The paths given to [add_files_to_xcode.py] that do not exist are
    only reported: they take no identifier and change no file. The
    files the script leaves are those it leaves when it is given the
    existing paths alone, in the same order. *)
Theorem X13_add_skips_the_paths_that_do_not_exist
  (exists_ : str -> bool) (rng : nat -> N) (args : list str) (w : world) :
  files <$> add_files_to_xcode.main exists_ rng args w
  = files <$> add_files_to_xcode.main (fun _ => true) rng
                (filter (fun a => exists_ a = true) args) w.
Proof.
  pose proof (add_loop_same_files exists_ rng args (Some (w, 0%nat)) (Some (w, 0%nat)))
    as H.
  unfold add_files_to_xcode.main.
  destruct args as [|a args]; [done|].
  set (l := foldl _ _ (a :: args)) in *.
  destruct (filter _ (a :: args)) as [|b args'] eqn:Ef.
  - cbn [foldl] in H. specialize (H ltac:(by constructor)).
    inversion H as [st1 st2 [Hf _] E1 E2|]; subst. cbn. by rewrite Hf.
  - set (r := foldl _ _ (b :: args')) in *. specialize (H ltac:(by constructor)).
    destruct H as [st1 st2 [Hf _]|]; cbn; by rewrite ?Hf.
Qed.

(** X14. With no Swift file found, [rebuild] drops no line of the
    manifest, and still does not leave it as it was: it puts an empty
    line before the end of the FileReference section and of the
    BuildFile section, and one more at the end of the files of the
    Sources phase. *)
Theorem X14_rebuild_without_files_adds_blank_lines (rng : nat -> N) (content : str) :
  rebuild_xcode_project.rebuilt_content rng [] content
  = append_to_lists (list_pattern sources_phase (txt "files") false) []
      (Py.replace end_build_file (NL :: end_build_file)
         (Py.replace end_file_reference (NL :: end_file_reference) content)).
Proof.
  unfold rebuild_xcode_project.rebuilt_content, rebuild_xcode_project.append_refs.
  cbn [rebuild_xcode_project.generate_ids rebuild_xcode_project.group_refs foldl
       fmap list_fmap Py.join app].
  replace (filter _ (Py.split NL content)) with (Py.split NL content).
  - by rewrite join_split.
  - induction (Py.split NL content) as [|l ls IH]; [done|].
    rewrite filter_cons_True; [by rewrite <- IH|].
    unfold rebuild_xcode_project.rebuilt_line. cbn [existsb]. by rewrite andb_false_r.
Qed.
